(** * Ollyio: the conversation table, its inactivity task and the chat history

    A shallow embedding of [bot.py] and [chatbot.py].

    - Python [int] is [Z], [str] is [string], a [list] is a [list] addressed
      by position with stdpp's lookup, insert and delete.
    - [round(time.time())] is a reading [now : Z] handed to the operation
      that takes it.
    - A [Member] object lives in the table's list and nowhere else, and is
      put there once (by [join_conversation], as a new object); mutating the
      object is therefore an update of the list at the object's position, and
      [list.remove(member)], which compares by identity since [Member] has no
      [__eq__], deletes the position the object was read from.
    - The handlers are taken one at a time: nothing else touches the table
      while a handler or a run of the background task is in progress. *)

From Stdlib Require Import ZArith String Ascii Lia DecimalString.
From stdpp Require Import base list strings.

Local Open Scope string_scope.
Local Open Scope Z_scope.
Local Open Scope list_scope.

(** ** bot.py: class Member *)

Module Member.

Record t : Type := mk {
  name : string;
  start_time : Z;
  max_time : Z;
  end_time : Z
}.

(** [__init__], with [now] the value of [round(time.time())]. *)
Definition init (name : string) (now : Z) : t :=
  let start_time := now in
  let max_time := 60 * 10 in
  {| name := name;
     start_time := start_time;
     max_time := max_time;
     end_time := max_time + start_time |}.

Definition set_start_time (now : Z) (self : t) : t :=
  {| name := name self;
     start_time := now;
     max_time := max_time self;
     end_time := end_time self |}.

Definition set_end_time (self : t) : t :=
  let remainder := end_time self - start_time self in
  let start_time' := end_time self in
  {| name := name self;
     start_time := start_time';
     max_time := max_time self;
     end_time := (start_time' + max_time self) - remainder |}.

Definition get_time (self : t) : Z :=
  end_time self - start_time self.

Definition check_time (self : t) : bool :=
  start_time self <? end_time self.

End Member.

(** ** bot.py: class ManageMembers *)

Module ManageMembers.

Record t : Type := mk {
  conversation_members : list Member.t;
  member_limit : nat
}.

(** [__init__] *)
Definition init : t :=
  {| conversation_members := []; member_limit := 5 |}.

Definition with_members (self : t) (ms : list Member.t) : t :=
  {| conversation_members := ms; member_limit := member_limit self |}.

(** The loop of [find_member] over the list. *)
Fixpoint find_in (ms : list Member.t) (member_name : string) : bool :=
  match ms with
  | [] => false
  | member :: rest =>
      if String.eqb (Member.name member) member_name then true
      else find_in rest member_name
  end.

Definition find_member (self : t) (member_name : string) : bool :=
  find_in (conversation_members self) member_name.

(** The loop of [get_member]; the position is kept beside the object since
    the caller mutates what it is handed. *)
Fixpoint get_in (ms : list Member.t) (member_name : string) (i : nat)
  : option (nat * Member.t) :=
  match ms with
  | [] => None
  | member :: rest =>
      if String.eqb (Member.name member) member_name then Some (i, member)
      else get_in rest member_name (S i)
  end.

Definition get_member_at (self : t) (member_name : string)
  : option (nat * Member.t) :=
  get_in (conversation_members self) member_name 0.

Definition get_member (self : t) (member_name : string) : option Member.t :=
  snd <$> get_member_at self member_name.

Definition add_member (self : t) (member : Member.t) : t * bool :=
  if (length (conversation_members self) <? member_limit self)%nat
  then (with_members self (conversation_members self ++ [member]), true)
  else (self, false).

(** [remove_member]: the [return True] closes the body of the [for], under
    the [if] and not inside it, so the loop body runs for the first member
    only; [return False] is reached when the list is empty. *)
Definition remove_member (self : t) (member_name : string) : t * bool :=
  match conversation_members self with
  | [] => (self, false)
  | member :: _ =>
      let self' :=
        if String.eqb (Member.name member) member_name
        then with_members self (delete 0%nat (conversation_members self))
        else self in
      (self', true)
  end.

Definition get_space (self : t) : nat :=
  length (conversation_members self).

(** [str(n)] for a natural number. *)
Definition str_of_nat (n : nat) : string :=
  NilEmpty.string_of_uint (Nat.to_uint n).

Definition get_space_left (self : t) : string :=
  ("Space left: " ++ str_of_nat (length (conversation_members self))
   ++ " / " ++ str_of_nat (member_limit self))%string.

End ManageMembers.

(** ** chatbot.py: class ChatBot *)

(** The double quote and the line feed, as one-character strings. *)
Definition dq : string := String (ascii_of_nat 34) EmptyString.
Definition nl : string := String (ascii_of_nat 10) EmptyString.

(** What a call can end in: a value, or an exception that leaves it. *)
Inductive exn : Type :=
  | RequestException   (* raised by [requests.post] *)
  | DecodeError.       (* raised by [json.loads] or by [data["response"]] *)

Inductive result (A : Type) : Type :=
  | Returned (a : A)
  | Raised (e : exn).
Arguments Returned {A} a.
Arguments Raised {A} e.

(** What [requests.post] does: it raises when no response arrives
    (connection refused, time-out, ...), else it returns a response with a
    status code and a body. *)
Inductive post_result : Type :=
  | PostRaises
  | PostResponse (status_code : Z) (text : string).

Module ChatBot.

Record t : Type := mk {
  commands : string;
  instructions : string;
  conversation_history : list string;
  conversation_length : nat
}.

Definition commands_text : string :=
  ("You are in a Discord server. You will be introduced to many server residents"
   ++ "who begin their text prompts with their " ++ dq ++ "name" ++ dq
   ++ " and said: " ++ dq ++ "content." ++ dq
   ++ "You should address them by their displayed name unless they say otherwise."
   ++ "The following instructions, if any, are set by the individual server owners"
   ++ "and you should follow it with care,"
   ++ "even if it's ridiculous.")%string.

(** [__init__] *)
Definition init : t :=
  let instructions := "" in
  {| commands := commands_text;
     instructions := instructions;
     conversation_history := [(commands_text ++ instructions)%string];
     conversation_length := 31 |}.

Definition with_history (self : t) (h : list string) : t :=
  {| commands := commands self;
     instructions := instructions self;
     conversation_history := h;
     conversation_length := conversation_length self |}.

(** [generate_response].  [post full_prompt] is the call of [requests.post]
    (of the request, only the prompt varies); [response_of text] is
    [json.loads(text)["response"]], [None] when that raises. *)
Definition generate_response
    (post : string -> post_result) (response_of : string -> option string)
    (self : t) (prompt : string) : t * result string :=
  let self1 := with_history self (conversation_history self ++ [prompt]) in
  let full_prompt := String.concat nl (conversation_history self1) in
  match post full_prompt with
  | PostRaises => (self1, Raised RequestException)
  | PostResponse status_code response_text =>
      if status_code =? 200 then
        match response_of response_text with
        | None => (self1, Raised DecodeError)
        | Some actual_reponse =>
            let h2 := conversation_history self1 ++ [actual_reponse] in
            let h3 :=
              if (conversation_length self1 <=? length h2)%nat
              then delete 1%nat h2
              else h2 in
            (with_history self1 h3, Returned actual_reponse)
        end
      else (self1, Returned "(No Response)")
  end.

Definition reset_conversation_history (self : t) : t :=
  with_history self [(commands self ++ instructions self)%string].

Definition edit_instructions (self : t) (personality goal restriction : string)
  : t :=
  let instructions :=
    ("PERSONALITY: " ++ personality
     ++ nl ++ nl ++ "GOAL: " ++ goal
     ++ nl ++ nl ++ "RESTRICTION: " ++ restriction)%string in
  reset_conversation_history
    {| commands := commands self;
       instructions := instructions;
       conversation_history := conversation_history self;
       conversation_length := conversation_length self |}.

End ChatBot.

(** ** What the handlers send out *)

Inductive notice : Type :=
  | Text (content : string)                  (* a plain message *)
  | HomeSet (channel_id : Z)                 (* "Home channel set to ..." *)
  | DirectMessage (content : string)         (* [message.author.send] *)
  | MentionText (user content : string)      (* a message that mentions [user] *)
  | Reaction                                 (* the check mark *)
  | JoinedEmbed (name footer : string)       (* "... has joined the conversation!" *)
  | LeftEmbed (name footer : string)         (* "... has left the conversation!" *)
  | KickedEmbed (name footer : string)       (* "... was kicked due to inactivity!" *)
  | ResponseEmbed (description footer : string).

(** ** bot.py: class BotMain *)

Module BotMain.

Record t : Type := mk {
  chatbot : ChatBot.t;
  members : ManageMembers.t;
  home_channel_id : option Z
}.

(** [main]: a new chat bot, an empty table, no home channel. *)
Definition init : t :=
  {| chatbot := ChatBot.init;
     members := ManageMembers.init;
     home_channel_id := None |}.

Definition with_chatbot (self : t) (c : ChatBot.t) : t :=
  {| chatbot := c; members := members self;
     home_channel_id := home_channel_id self |}.

Definition with_members (self : t) (m : ManageMembers.t) : t :=
  {| chatbot := chatbot self; members := m;
     home_channel_id := home_channel_id self |}.

(** [check_if_home]: [True], [None] or [False]. *)
Definition check_if_home (self : t) (channel_id : Z) : option bool :=
  match home_channel_id self with
  | Some home => if home =? channel_id then Some true else Some false
  | None => None
  end.

(** [set_home], behind [admin_command]. *)
Definition set_home (self : t) (administrator : bool) (channel_id : Z)
  : t * list notice :=
  if administrator
  then ({| chatbot := chatbot self; members := members self;
           home_channel_id := Some channel_id |},
        [HomeSet channel_id])
  else (self, [Text "You need administrator permissions to use this command!"]).

(** [range(start, stop, step)] for a positive step. *)
Definition range (start stop step : nat) : list nat :=
  (fun k => start + k * step)%nat <$> seq 0 ((stop - start + step - 1) / step).

Definition text_limit : nat := 2000.

(** The list comprehension of [on_message], for a limit:
    [response[i : i + limit] for i in range(0, len(response), limit)];
    [substring i limit response] is the slice [response[i : i + limit]]. *)
Definition slices (limit : nat) (response : string) : list string :=
  (fun i => substring i limit response)
    <$> range 0 (String.length response) limit.

Definition parsed_response (response : string) : list string :=
  slices text_limit response.

(** The replies that carry a response: the chunks when it is longer than
    the limit, else the response itself. *)
Definition replies (response prompt : string) : list notice :=
  if (text_limit <? String.length response)%nat
  then (fun chunk => ResponseEmbed chunk prompt) <$> parsed_response response
  else [ResponseEmbed response prompt].

Record Message : Type := mkMessage {
  author_name : string;
  author_is_bot : bool;     (* [message.author == self.bot.user] *)
  author_takes_dm : bool;   (* false: [author.send] raises [Forbidden] *)
  channel_id : Z;
  content : string
}.

(** [member.set_end_time()] on the object [get_member] hands out. *)
Definition touch (ms : ManageMembers.t) (member_name : string)
  : ManageMembers.t :=
  match ManageMembers.get_member_at ms member_name with
  | Some (i, member) =>
      ManageMembers.with_members ms
        (<[i := Member.set_end_time member]>
           (ManageMembers.conversation_members ms))
  | None => ms
  end.

(** [on_message]: the state after it, what it sent, and the exception that
    left it, if one did. *)
Definition on_message
    (post : string -> post_result) (response_of : string -> option string)
    (self : t) (message : Message) : t * list notice * option exn :=
  if author_is_bot message
     || bool_decide (check_if_home self (channel_id message) = Some false)
  then (self, [], None)
  else
    match content message with
    | String ">" rest =>
        if bool_decide (check_if_home self (channel_id message) = None)
        then (self, [Text
          "Your server needs to set a home channel for conversations. Use **/set-home**"],
          None)
        else if ManageMembers.find_member (members self) (author_name message)
        then
          let self1 :=
            with_members self (touch (members self) (author_name message)) in
          let prompt :=
            ("**" ++ author_name message ++ "**" ++ " said: "
             ++ dq ++ rest ++ dq)%string in
          match ChatBot.generate_response post response_of
                  (chatbot self1) prompt with
          | (c, Returned response) =>
              (with_chatbot self1 c, Reaction :: replies response prompt, None)
          | (c, Raised e) => (with_chatbot self1 c, [Reaction], Some e)
          end
        else
          (self,
           [if author_takes_dm message
            then DirectMessage
                   "You must use the /join-conversation command to participate."
            else MentionText (author_name message)
                   ", you must use the /join-conversation command to participate."],
           None)
    | _ => (self, [], None)
    end.

End BotMain.

(** ** bot.py: class PublicCommands *)

Module PublicCommands.

(** [join_conversation], with [now] the clock reading [Member.__init__]
    takes. *)
Definition join_conversation
    (self : BotMain.t) (channel_id : Z) (user_name : string) (now : Z)
  : BotMain.t * list notice :=
  if bool_decide (Some channel_id = BotMain.home_channel_id self) then
    if ManageMembers.find_member (BotMain.members self) user_name
    then (self, [Text "You're already in the conversation!"])
    else
      let new_member := Member.init user_name now in
      match ManageMembers.add_member (BotMain.members self) new_member with
      | (members', true) =>
          (BotMain.with_members self members',
           [JoinedEmbed user_name (ManageMembers.get_space_left members')])
      | (members', false) =>
          (BotMain.with_members self members',
           [Text "Conversation is full, try again later"])
      end
  else
    (self,
     [Text "You need to set a home channel (/set-home) to use this command!"]).

Definition leave_conversation (self : BotMain.t) (user_name : string)
  : BotMain.t * list notice :=
  match ManageMembers.remove_member (BotMain.members self) user_name with
  | (members', true) =>
      (BotMain.with_members self members',
       [LeftEmbed user_name (ManageMembers.get_space_left members')])
  | (members', false) =>
      (BotMain.with_members self members',
       [Text "You are not part of the conversation."])
  end.

End PublicCommands.

(** ** bot.py: class BackgroundTasks *)

Module BackgroundTasks.

(** The [for] of [check_members] over the live list.  Python's list
    iterator keeps a position [i]; each round it stops if [i] is no longer
    inside the list as it is then, else it yields the element at [i] and
    moves to [i + 1].  [fuel] bounds the number of rounds; [None] is fuel
    run out.  [sent] collects the embeds sent to the home channel (the send
    is taken to succeed). *)
Fixpoint check_members_loop
    (fuel : nat) (now : Z) (i : nat)
    (members : ManageMembers.t) (sent : list notice)
  : option (ManageMembers.t * list notice) :=
  match fuel with
  | O => None
  | S fuel' =>
      match ManageMembers.conversation_members members !! i with
      | None => Some (members, sent)
      | Some member =>
          let member' := Member.set_start_time now member in
          let members1 :=
            ManageMembers.with_members members
              (<[i := member']> (ManageMembers.conversation_members members)) in
          if Member.check_time member'
          then Some (members1, sent)
          else
            let members2 :=
              ManageMembers.with_members members1
                (delete i (ManageMembers.conversation_members members1)) in
            let embed :=
              KickedEmbed (Member.name member')
                          (ManageMembers.get_space_left members2) in
            check_members_loop fuel' now (S i) members2 (sent ++ [embed])
      end
  end.

(** One run of [check_members], the clock reading [now] throughout.  A
    round moves the position one step and the list never grows, so one more
    round than the list is long is fuel enough. *)
Definition check_members (members : ManageMembers.t) (now : Z)
  : option (ManageMembers.t * list notice) :=
  if (ManageMembers.get_space members =? 0)%nat
  then Some (members, [])
  else
    check_members_loop
      (S (length (ManageMembers.conversation_members members)))
      now 0 members [].

End BackgroundTasks.

(** ** bot.py: class AdminCommands *)

Module AdminCommands.

(** [reset_conversation], behind [admin_command]. *)
Definition reset_conversation (self : BotMain.t) (administrator : bool)
  : BotMain.t :=
  if administrator
  then BotMain.with_chatbot self
         (ChatBot.reset_conversation_history (BotMain.chatbot self))
  else self.

(** [edit_instructions] and the modal's [on_submit]. *)
Definition edit_instructions
    (self : BotMain.t) (administrator : bool)
    (personality goals restrictions : string) : BotMain.t :=
  if administrator
  then BotMain.with_chatbot self
         (ChatBot.edit_instructions (BotMain.chatbot self)
            personality goals restrictions)
  else self.

End AdminCommands.

(** ** The bot as a whole: the events it handles, one at a time *)

Module Bot.

Inductive event : Type :=
  | SetHome (administrator : bool) (channel_id : Z)
  | JoinConversation (channel_id : Z) (user_name : string) (now : Z)
  | LeaveConversation (user_name : string)
  | OnMessage (message : BotMain.Message) (reply : post_result)
  | CheckMembers (now : Z)
  | ResetConversation (administrator : bool)
  | EditInstructions (administrator : bool)
      (personality goals restrictions : string).

(** The state after one event; [None] only if [check_members] ran out of
    fuel. *)
Definition step (response_of : string -> option string)
    (self : BotMain.t) (e : event) : option BotMain.t :=
  match e with
  | SetHome administrator channel_id =>
      Some (fst (BotMain.set_home self administrator channel_id))
  | JoinConversation channel_id user_name now =>
      Some (fst (PublicCommands.join_conversation self channel_id user_name now))
  | LeaveConversation user_name =>
      Some (fst (PublicCommands.leave_conversation self user_name))
  | OnMessage message reply =>
      Some (fst (fst (BotMain.on_message (fun _ => reply) response_of
                        self message)))
  | CheckMembers now =>
      match BackgroundTasks.check_members (BotMain.members self) now with
      | Some (members', _) => Some (BotMain.with_members self members')
      | None => None
      end
  | ResetConversation administrator =>
      Some (AdminCommands.reset_conversation self administrator)
  | EditInstructions administrator personality goals restrictions =>
      Some (AdminCommands.edit_instructions self administrator
              personality goals restrictions)
  end.

Fixpoint run (response_of : string -> option string)
    (self : BotMain.t) (es : list event) : option BotMain.t :=
  match es with
  | [] => Some self
  | e :: es' =>
      match step response_of self e with
      | Some self' => run response_of self' es'
      | None => None
      end
  end.

End Bot.

(** ** Words used in the statements *)

(** The backend call failed: no response arrived, or one arrived with a
    status other than 200. *)
Definition call_failed (r : post_result) : Prop :=
  match r with
  | PostRaises => True
  | PostResponse status_code _ => status_code <> 200
  end.

(** The text [generate_response] hands to [requests.post] for a prompt. *)
Definition full_prompt_of (self : ChatBot.t) (prompt : string) : string :=
  String.concat nl (ChatBot.conversation_history self ++ [prompt]).

(** [n] exchanges in a row that all succeed: the backend answers 200 with
    the body [answer], read back as it is. *)
Fixpoint exchanges (n : nat) (prompt answer : string) (self : ChatBot.t)
  : ChatBot.t :=
  match n with
  | O => self
  | S n' =>
      exchanges n' prompt answer
        (fst (ChatBot.generate_response
                (fun _ => PostResponse 200 answer) Some self prompt))
  end.

(** The names in a table, in order. *)
Definition names (members : ManageMembers.t) : list string :=
  Member.name <$> ManageMembers.conversation_members members.

(** The names on the kick embeds among what was sent, in order. *)
Fixpoint kicked (sent : list notice) : list string :=
  match sent with
  | [] => []
  | KickedEmbed name _ :: sent' => name :: kicked sent'
  | _ :: sent' => kicked sent'
  end.

(** A table of limit 5 with the given entries. *)
Definition table (ms : list Member.t) : ManageMembers.t :=
  {| ManageMembers.conversation_members := ms;
     ManageMembers.member_limit := 5 |}.

(** A bot whose home channel is 7, with the given entries in its table. *)
Definition at_home (ms : list Member.t) : BotMain.t :=
  {| BotMain.chatbot := ChatBot.init;
     BotMain.members := table ms;
     BotMain.home_channel_id := Some 7 |}.

Definition five : list Member.t :=
  [Member.init "a" 0; Member.init "b" 1; Member.init "c" 2;
   Member.init "d" 3; Member.init "e" 4].

(** A response of 2001 characters. *)
Definition long_response : string :=
  string_of_list_ascii (replicate 2001 "a"%char).

(** The table holds no more members than its limit, which is 5. *)
Definition within_limit (self : BotMain.t) : Prop :=
  (length (ManageMembers.conversation_members (BotMain.members self))
   <= ManageMembers.member_limit (BotMain.members self))%nat
  /\ ManageMembers.member_limit (BotMain.members self) = 5%nat.

(** Name and end of an entry: what a tick leaves alone. *)
Definition deadline_of (m : Member.t) : string * Z :=
  (Member.name m, Member.end_time m).



(** No name twice in the table, and no entry at all while no home channel
    is set. *)
Definition well_kept (self : BotMain.t) : Prop :=
  NoDup (names (BotMain.members self))
  /\ (BotMain.home_channel_id self = None ->
      ManageMembers.conversation_members (BotMain.members self) = []).

(** The text a response embed carries. *)
Definition description_of (n : notice) : string :=
  match n with
  | ResponseEmbed description _ => description
  | _ => ""
  end.

(** Calls of [generate_response] in a row, each with its prompt and with
    what the backend does at that call. *)
Fixpoint calls (response_of : string -> option string)
    (cs : list (string * post_result)) (self : ChatBot.t) : ChatBot.t :=
  match cs with
  | [] => self
  | (prompt, reply) :: cs' =>
      calls response_of cs'
        (fst (ChatBot.generate_response (fun _ => reply) response_of
                self prompt))
  end.


(** * Properties *)

(** ** Runs on small inputs *)

Example get_space_left_init :
  ManageMembers.get_space_left ManageMembers.init = "Space left: 0 / 5".
Proof. reflexivity. Qed.

(** Five members join in the home channel; the sixth is refused. *)
Example five_join_sixth_refused :
  Bot.run Some BotMain.init
    [Bot.SetHome true 7;
     Bot.JoinConversation 7 "a" 0; Bot.JoinConversation 7 "b" 1;
     Bot.JoinConversation 7 "c" 2; Bot.JoinConversation 7 "d" 3;
     Bot.JoinConversation 7 "e" 4; Bot.JoinConversation 7 "f" 5]
  = Some (at_home five).
Proof. reflexivity. Qed.

Example sixth_is_told_full :
  snd (PublicCommands.join_conversation (at_home five) 7 "f" 5)
  = [Text "Conversation is full, try again later"].
Proof. reflexivity. Qed.

(** Joined at 0 and silent since, kicked by the tick at 650. *)
Example lone_entry_kicked_at_650 :
  BackgroundTasks.check_members (table [Member.init "a" 0]) 650
  = Some (table [], [KickedEmbed "a" "Space left: 0 / 5"]).
Proof. reflexivity. Qed.

(** ** Member: the timer *)

(** C3. [set_end_time] (the touch) takes [remaining = end_time - start_time]
    from the state before it, moves [start_time] to the old [end_time] and
    sets [end_time] to the new [start_time + max_time - remaining]; so after
    it [end_time = start_time + max_time - remaining] with the old
    [remaining].  Name and [max_time] are left as they were. *)
Theorem set_end_time_keeps_slack (m : Member.t) :
  Member.start_time (Member.set_end_time m) = Member.end_time m /\
  Member.end_time (Member.set_end_time m)
  = Member.start_time (Member.set_end_time m)
    + Member.max_time (Member.set_end_time m)
    - (Member.end_time m - Member.start_time m) /\
  Member.max_time (Member.set_end_time m) = Member.max_time m /\
  Member.name (Member.set_end_time m) = Member.name m.
Proof.
  destruct m as [n s mx e]; cbn. repeat split.
Qed.

Lemma set_end_time_end (m : Member.t) :
  Member.end_time (Member.set_end_time m)
  = Member.start_time m + Member.max_time m.
Proof. destruct m; cbn; lia. Qed.

Lemma get_time_set_end_time (m : Member.t) :
  Member.get_time (Member.set_end_time m)
  = Member.max_time m - Member.get_time m.
Proof. destruct m; unfold Member.get_time; cbn; lia. Qed.


Lemma check_time_false (m : Member.t) :
  Member.check_time m = false <-> Member.end_time m <= Member.start_time m.
Proof. unfold Member.check_time. apply Z.ltb_ge. Qed.

(** ** ManageMembers: lookup *)

Lemma find_in_spec (ms : list Member.t) (member_name : string) :
  ManageMembers.find_in ms member_name = true
  <-> member_name ∈ Member.name <$> ms.
Proof.
  induction ms as [|m ms IH]; cbn.
  - split; [discriminate | intros H; inversion H].
  - destruct (String.eqb (Member.name m) member_name) eqn:E.
    + apply String.eqb_eq in E. subst. split; [intros _; left | done].
    + apply String.eqb_neq in E. rewrite IH. split.
      * intros H. by right.
      * intros H. inversion H; subst; [done | assumption].
Qed.

Lemma find_member_false (members : ManageMembers.t) (member_name : string) :
  ManageMembers.find_member members member_name = false
  <-> member_name ∉ names members.
Proof.
  unfold ManageMembers.find_member, names.
  rewrite <- find_in_spec.
  destruct (ManageMembers.find_in _ _); split; intros H; try done.
Qed.

Lemma get_in_lookup (ms : list Member.t) (member_name : string)
    (k i : nat) (m : Member.t) :
  ManageMembers.get_in ms member_name k = Some (i, m) ->
  (k <= i)%nat /\ ms !! (i - k)%nat = Some m /\ Member.name m = member_name.
Proof.
  revert k. induction ms as [|x ms IH]; intros k; cbn; [discriminate|].
  destruct (String.eqb (Member.name x) member_name) eqn:E.
  - intros [= <- <-]. apply String.eqb_eq in E.
    replace (k - k)%nat with 0%nat by lia. auto.
  - intros H. destruct (IH _ H) as (Hk & Hl & Hn).
    split; [lia|]. split; [|assumption].
    replace (i - k)%nat with (S (i - S k)) by lia. exact Hl.
Qed.

Lemma touch_length (members : ManageMembers.t) (member_name : string) :
  length (ManageMembers.conversation_members
            (BotMain.touch members member_name))
  = length (ManageMembers.conversation_members members).
Proof.
  unfold BotMain.touch.
  destruct (ManageMembers.get_member_at members member_name) as [[i m]|];
    cbn; [apply length_insert | reflexivity].
Qed.

Lemma touch_limit (members : ManageMembers.t) (member_name : string) :
  ManageMembers.member_limit (BotMain.touch members member_name)
  = ManageMembers.member_limit members.
Proof.
  unfold BotMain.touch.
  by destruct (ManageMembers.get_member_at members member_name) as [[i m]|].
Qed.

(** ** ManageMembers: removal *)

(** What [remove_member] does: it looks at the first member only. *)
Lemma remove_member_first (m : Member.t) (rest : list Member.t)
    (limit : nat) (member_name : string) :
  ManageMembers.remove_member
    {| ManageMembers.conversation_members := m :: rest;
       ManageMembers.member_limit := limit |} member_name
  = (if String.eqb (Member.name m) member_name
     then {| ManageMembers.conversation_members := rest;
             ManageMembers.member_limit := limit |}
     else {| ManageMembers.conversation_members := m :: rest;
             ManageMembers.member_limit := limit |},
     true).
Proof.
  unfold ManageMembers.remove_member; cbn.
  by destruct (String.eqb (Member.name m) member_name).
Qed.

Lemma remove_member_length (members : ManageMembers.t) (member_name : string) :
  (length (ManageMembers.conversation_members
             (fst (ManageMembers.remove_member members member_name)))
   <= length (ManageMembers.conversation_members members))%nat
  /\ ManageMembers.member_limit
       (fst (ManageMembers.remove_member members member_name))
     = ManageMembers.member_limit members.
Proof.
  destruct members as [[|m rest] limit]; [by cbn|].
  rewrite remove_member_first.
  destruct (String.eqb (Member.name m) member_name); cbn; split; lia.
Qed.

(** C4, the code at a failing input.  With alice alone in the table,
    removing bob, who is absent, answers [True] and removes nothing; with
    alice and bob in the table, removing bob, who is present, answers [True]
    and bob is still there. *)
Theorem remove_member_answers_true_without_removal :
  ManageMembers.remove_member (table [Member.init "alice" 0]) "bob"
  = (table [Member.init "alice" 0], true)
  /\ ManageMembers.remove_member
       (table [Member.init "alice" 0; Member.init "bob" 0]) "bob"
     = (table [Member.init "alice" 0; Member.init "bob" 0], true).
Proof. split; reflexivity. Qed.

(** ** PublicCommands: admission *)

Lemma add_member_length (members : ManageMembers.t) (member : Member.t) :
  (length (ManageMembers.conversation_members members)
   <= ManageMembers.member_limit members)%nat ->
  (length (ManageMembers.conversation_members
             (fst (ManageMembers.add_member members member)))
   <= ManageMembers.member_limit members)%nat
  /\ ManageMembers.member_limit (fst (ManageMembers.add_member members member))
     = ManageMembers.member_limit members.
Proof.
  intros Hinv. unfold ManageMembers.add_member.
  destruct (Nat.ltb_spec (length (ManageMembers.conversation_members members))
              (ManageMembers.member_limit members)); cbn.
  - rewrite length_app; cbn. split; [lia | reflexivity].
  - auto.
Qed.

(** C5, the claim at a failing input.  The home channel is 7 and alice is
    in the table; she asks to join from channel 8.  She is told to set a
    home channel, not that she is already in the conversation.  The same
    answer goes to frank, who is new, when the table holds five. *)
Lemma join_outside_home_channel :
  "alice" ∈ names (BotMain.members (at_home [Member.init "alice" 0]))
  /\ PublicCommands.join_conversation
       (at_home [Member.init "alice" 0]) 8 "alice" 30
     = (at_home [Member.init "alice" 0],
        [Text "You need to set a home channel (/set-home) to use this command!"])
  /\ PublicCommands.join_conversation
       (at_home [Member.init "alice" 0]) 8 "alice" 30
     <> (at_home [Member.init "alice" 0],
         [Text "You're already in the conversation!"])
  /\ PublicCommands.join_conversation (at_home five) 8 "frank" 30
     <> (at_home five, [Text "Conversation is full, try again later"]).
Proof.
  split; [cbn; left|]. split; [reflexivity|]. split; discriminate.
Qed.

(** C5, amended.  On a table within its limit, a [join_conversation] issued
    in the home channel: a name already in the table is told it is already
    in the conversation and nothing changes; a new name, the table holding
    as many members as the limit, is told the conversation is full and
    nothing changes; a new name otherwise gets a new entry at the end of the
    table, started at [now] with its end 600 later.  Issued anywhere else,
    it is told to set a home channel and nothing changes. *)
Theorem join_conversation_admission
    (self : BotMain.t) (channel_id : Z) (user_name : string) (now : Z) :
  (length (ManageMembers.conversation_members (BotMain.members self))
   <= ManageMembers.member_limit (BotMain.members self))%nat ->
  (BotMain.home_channel_id self = Some channel_id ->
   user_name ∈ names (BotMain.members self) ->
   PublicCommands.join_conversation self channel_id user_name now
   = (self, [Text "You're already in the conversation!"]))
  /\
  (BotMain.home_channel_id self = Some channel_id ->
   user_name ∉ names (BotMain.members self) ->
   length (ManageMembers.conversation_members (BotMain.members self))
   = ManageMembers.member_limit (BotMain.members self) ->
   PublicCommands.join_conversation self channel_id user_name now
   = (self, [Text "Conversation is full, try again later"]))
  /\
  (BotMain.home_channel_id self = Some channel_id ->
   user_name ∉ names (BotMain.members self) ->
   length (ManageMembers.conversation_members (BotMain.members self))
   <> ManageMembers.member_limit (BotMain.members self) ->
   exists members',
     PublicCommands.join_conversation self channel_id user_name now
     = (BotMain.with_members self members',
        [JoinedEmbed user_name (ManageMembers.get_space_left members')])
     /\ ManageMembers.conversation_members members'
        = ManageMembers.conversation_members (BotMain.members self)
          ++ [{| Member.name := user_name;
                 Member.start_time := now;
                 Member.max_time := 600;
                 Member.end_time := now + 600 |}]
     /\ ManageMembers.member_limit members'
        = ManageMembers.member_limit (BotMain.members self))
  /\
  (BotMain.home_channel_id self <> Some channel_id ->
   PublicCommands.join_conversation self channel_id user_name now
   = (self,
      [Text "You need to set a home channel (/set-home) to use this command!"])).
Proof.
  intros Hinv.
  unfold PublicCommands.join_conversation.
  destruct self as [c ms home]; cbn in *.
  split; [|split; [|split]].
  - intros -> Hin. rewrite bool_decide_eq_true_2 by reflexivity.
    apply find_in_spec in Hin.
    unfold ManageMembers.find_member. by rewrite Hin.
  - intros -> Hnew Hfull. rewrite bool_decide_eq_true_2 by reflexivity.
    apply find_member_false in Hnew. rewrite Hnew.
    unfold ManageMembers.add_member.
    rewrite (proj2 (Nat.ltb_ge _ _)) by lia.
    by destruct ms.
  - intros -> Hnew Hroom. rewrite bool_decide_eq_true_2 by reflexivity.
    apply find_member_false in Hnew. rewrite Hnew.
    unfold ManageMembers.add_member.
    rewrite (proj2 (Nat.ltb_lt _ _)) by lia.
    eexists. split; [reflexivity|]. cbn.
    split; [|reflexivity]. do 3 f_equal. unfold Member.init. f_equal. lia.
  - intros Hhome. by rewrite bool_decide_eq_false_2 by congruence.
Qed.

Lemma join_conversation_admission_witness :
  PublicCommands.join_conversation (at_home [Member.init "alice" 0]) 7 "alice" 30
  = (at_home [Member.init "alice" 0], [Text "You're already in the conversation!"])
  /\ PublicCommands.join_conversation (at_home five) 7 "frank" 30
     = (at_home five, [Text "Conversation is full, try again later"])
  /\ (exists members',
       PublicCommands.join_conversation (at_home [Member.init "alice" 0]) 7 "bob" 30
       = (BotMain.with_members (at_home [Member.init "alice" 0]) members',
          [JoinedEmbed "bob" (ManageMembers.get_space_left members')])
       /\ ManageMembers.conversation_members members'
          = [Member.init "alice" 0]
            ++ [{| Member.name := "bob"; Member.start_time := 30;
                   Member.max_time := 600; Member.end_time := 30 + 600 |}]
       /\ ManageMembers.member_limit members' = 5%nat)
  /\ PublicCommands.join_conversation (at_home [Member.init "alice" 0]) 8 "bob" 30
     = (at_home [Member.init "alice" 0],
        [Text "You need to set a home channel (/set-home) to use this command!"]).
Proof.
  assert (Hone : (length [Member.init "alice" 0] <= 5)%nat) by (cbn; lia).
  assert (Hfive : (length five <= 5)%nat) by (cbn; lia).
  split; [|split; [|split]].
  - refine (proj1 (join_conversation_admission
                     (at_home [Member.init "alice" 0]) 7 "alice" 30 Hone) _ _).
    + reflexivity.
    + cbn. left.
  - refine (proj1 (proj2 (join_conversation_admission
                            (at_home five) 7 "frank" 30 Hfive)) _ _ _).
    + reflexivity.
    + apply find_member_false. reflexivity.
    + reflexivity.
  - refine (proj1 (proj2 (proj2 (join_conversation_admission
                            (at_home [Member.init "alice" 0]) 7 "bob" 30 Hone)))
              _ _ _).
    + reflexivity.
    + apply find_member_false. reflexivity.
    + cbn. lia.
  - refine (proj2 (proj2 (proj2 (join_conversation_admission
                            (at_home [Member.init "alice" 0]) 8 "bob" 30 Hone)))
              _).
    cbn. congruence.
Defined.

(** ** Strings: slices and joins *)

Lemma append_cons (c : ascii) (s t : string) :
  (String c s ++ t)%string = String c (s ++ t).
Proof. reflexivity. Qed.

Lemma append_empty_l (s : string) : ("" ++ s)%string = s.
Proof. reflexivity. Qed.

Lemma append_empty_r (s : string) : (s ++ "")%string = s.
Proof.
  induction s as [|c s IH]; [reflexivity | by rewrite append_cons, IH].
Qed.

Lemma append_assoc (s1 s2 s3 : string) :
  ((s1 ++ s2) ++ s3)%string = (s1 ++ (s2 ++ s3))%string.
Proof.
  induction s1 as [|c s1 IH]; [reflexivity | by rewrite !append_cons, IH].
Qed.

Lemma substring_0_0 (s : string) : substring 0 0 s = "".
Proof. by destruct s. Qed.

Lemma substring_0_app (a b : nat) (s : string) :
  (substring 0 a s ++ substring a b s)%string = substring 0 (a + b) s.
Proof.
  revert s. induction a as [|a IH]; intros s.
  - by rewrite substring_0_0.
  - destruct s as [|c s]; simpl.
    + by destruct b.
    + by rewrite append_cons, IH.
Qed.

Lemma substring_0_all (n : nat) (s : string) :
  (String.length s <= n)%nat -> substring 0 n s = s.
Proof.
  revert n. induction s as [|c s IH]; intros [|n] Hn; cbn in *;
    try reflexivity; try lia.
  rewrite IH; [reflexivity | lia].
Qed.

Lemma length_substring (i n : nat) (s : string) :
  String.length (substring i n s) = Nat.min n (String.length s - i).
Proof.
  revert i n.
  induction s as [|c s IH]; intros [|i] [|n];
    cbn [String.length substring Nat.sub]; rewrite ?IH; lia.
Qed.

Lemma concat_empty_cons (x : string) (l : list string) :
  String.concat "" (x :: l) = (x ++ String.concat "" l)%string.
Proof. destruct l; simpl; [by rewrite append_empty_r | reflexivity]. Qed.

Lemma concat_empty_snoc (l : list string) (x : string) :
  String.concat "" (l ++ [x]) = (String.concat "" l ++ x)%string.
Proof.
  induction l as [|y l IH].
  - reflexivity.
  - change ((y :: l) ++ [x]) with (y :: (l ++ [x])).
    by rewrite !concat_empty_cons, IH, append_assoc.
Qed.

(** ** BotMain: the chunks of a long response *)

Section Chunks.

Variable limit : nat.
Hypothesis limit_pos : (0 < limit)%nat.

Lemma range_0 (stop : nat) :
  BotMain.range 0 stop limit
  = (fun k => k * limit)%nat <$> seq 0 ((stop + limit - 1) / limit).
Proof. unfold BotMain.range. by rewrite Nat.sub_0_r. Qed.

Lemma concat_slices_upto (s : string) (m : nat) :
  String.concat "" ((fun k => substring (k * limit) limit s) <$> seq 0 m)
  = substring 0 (m * limit) s.
Proof.
  induction m as [|m IH].
  - cbn. by rewrite substring_0_0.
  - rewrite seq_S, fmap_app.
    change ((fun k => substring (k * limit) limit s) <$> [(0 + m)%nat])
      with [substring (m * limit) limit s].
    rewrite concat_empty_snoc, IH, substring_0_app. f_equal. lia.
Qed.

Lemma count_covers (n : nat) : (n <= (n + limit - 1) / limit * limit)%nat.
Proof.
  pose proof (Nat.mul_succ_div_gt (n + limit - 1) limit ltac:(lia)). lia.
Qed.

Lemma count_tight (n k : nat) :
  (k < (n + limit - 1) / limit)%nat -> (k * limit < n)%nat.
Proof.
  intros Hk.
  pose proof (Nat.Div0.mul_div_le (n + limit - 1) limit).
  nia.
Qed.

Lemma concat_slices (s : string) : String.concat "" (BotMain.slices limit s) = s.
Proof.
  unfold BotMain.slices. rewrite range_0, <- list_fmap_compose.
  change ((fun i => substring i limit s) ∘ (fun k => (k * limit)%nat))
    with (fun k => substring (k * limit) limit s).
  rewrite concat_slices_upto. apply substring_0_all, count_covers.
Qed.

Lemma slices_sizes (s : string) :
  Forall (fun chunk => (0 < String.length chunk <= limit)%nat) (BotMain.slices limit s).
Proof.
  unfold BotMain.slices. rewrite range_0, <- list_fmap_compose.
  apply Forall_fmap, Forall_forall. intros k Hk.
  apply elem_of_seq in Hk. cbn.
  rewrite length_substring.
  pose proof (count_tight (String.length s) k ltac:(lia)). lia.
Qed.

End Chunks.

(** C8. A response longer than 2000 characters is delivered as the chunks
    of [parsed_response]; joined in order they give the response back, and
    every chunk has at least one character and at most 2000. *)
Theorem long_response_chunks (response prompt : string) :
  (2000 < String.length response)%nat ->
  BotMain.replies response prompt
  = (fun chunk => ResponseEmbed chunk prompt)
      <$> BotMain.parsed_response response
  /\ String.concat "" (BotMain.parsed_response response) = response
  /\ Forall (fun chunk => (0 < String.length chunk <= 2000)%nat)
       (BotMain.parsed_response response).
Proof.
  intros Hlong. split; [|split].
  - unfold BotMain.replies.
    by rewrite (proj2 (Nat.ltb_lt _ _)) by exact Hlong.
  - apply concat_slices. unfold BotMain.text_limit. lia.
  - apply (slices_sizes BotMain.text_limit). unfold BotMain.text_limit. lia.
Qed.

Lemma long_response_chunks_witness :
  BotMain.replies long_response "p"
  = (fun chunk => ResponseEmbed chunk "p")
      <$> BotMain.parsed_response long_response
  /\ String.concat "" (BotMain.parsed_response long_response) = long_response
  /\ Forall (fun chunk => (0 < String.length chunk <= 2000)%nat)
       (BotMain.parsed_response long_response).
Proof.
  apply (long_response_chunks long_response "p").
  apply Nat.ltb_lt. vm_compute. reflexivity.
Defined.

(** ** BackgroundTasks: one run of the inactivity check *)

(** The loop ends: fuel beyond the entries still ahead is enough. *)
Lemma check_members_loop_total
    (fuel : nat) (now : Z) (i : nat)
    (members : ManageMembers.t) (sent : list notice) :
  (length (ManageMembers.conversation_members members) - i < fuel)%nat ->
  exists r, BackgroundTasks.check_members_loop fuel now i members sent = Some r.
Proof.
  revert i members sent.
  induction fuel as [|fuel IH]; intros i [ms limit] sent Hfuel; [lia|].
  cbn in *. destruct (ms !! i) as [m|] eqn:Hi; [|eauto].
  destruct (Member.check_time (Member.set_start_time now m)); [eauto|].
  pose proof (lookup_lt_Some _ _ _ Hi) as Hlt.
  apply IH. cbn.
  rewrite length_delete, length_insert; [lia|].
  by apply list_lookup_insert_is_Some.
Qed.

(** Each kick takes one entry out and sends one embed; the limit stays. *)
Lemma check_members_loop_count
    (fuel : nat) (now : Z) (i : nat)
    (members members' : ManageMembers.t) (sent sent' : list notice) :
  BackgroundTasks.check_members_loop fuel now i members sent
  = Some (members', sent') ->
  (length (ManageMembers.conversation_members members') + length sent'
   = length (ManageMembers.conversation_members members) + length sent)%nat
  /\ (length sent <= length sent')%nat
  /\ ManageMembers.member_limit members' = ManageMembers.member_limit members.
Proof.
  revert i members sent.
  induction fuel as [|fuel IH]; intros i [ms limit] sent; [discriminate|].
  cbn. destruct (ms !! i) as [m|] eqn:Hi.
  - pose proof (lookup_lt_Some _ _ _ Hi) as Hlt.
    destruct (Member.check_time (Member.set_start_time now m)).
    + intros [= <- <-]. cbn. rewrite length_insert. auto.
    + intros H. apply IH in H. cbn in H.
      rewrite length_delete, length_insert, length_app in H; cbn in H.
      * lia.
      * by apply list_lookup_insert_is_Some.
  - intros [= <- <-]. auto.
Qed.

Lemma check_members_total (members : ManageMembers.t) (now : Z) :
  exists r, BackgroundTasks.check_members members now = Some r.
Proof.
  unfold BackgroundTasks.check_members.
  destruct (ManageMembers.get_space members =? 0)%nat; [eauto|].
  apply check_members_loop_total. lia.
Qed.

(** The table after a run is the table before less one entry per embed
    sent. *)
Lemma check_members_count
    (members members' : ManageMembers.t) (now : Z) (sent : list notice) :
  BackgroundTasks.check_members members now = Some (members', sent) ->
  (length (ManageMembers.conversation_members members') + length sent
   = length (ManageMembers.conversation_members members))%nat
  /\ ManageMembers.member_limit members' = ManageMembers.member_limit members.
Proof.
  unfold BackgroundTasks.check_members.
  destruct (ManageMembers.get_space members =? 0)%nat.
  - intros [= <- <-]. cbn. split; [lia | reflexivity].
  - intros H. apply check_members_loop_count in H. cbn in H.
    split; [lia | tauto].
Qed.

(** A run that finds the first entry still in time stops there. *)
Lemma check_members_first_in_time
    (m : Member.t) (rest : list Member.t) (limit : nat) (now : Z) :
  now < Member.end_time m ->
  BackgroundTasks.check_members
    {| ManageMembers.conversation_members := m :: rest;
       ManageMembers.member_limit := limit |} now
  = Some ({| ManageMembers.conversation_members :=
               Member.set_start_time now m :: rest;
             ManageMembers.member_limit := limit |}, []).
Proof.
  intros Hnow. unfold BackgroundTasks.check_members. cbn.
  unfold Member.check_time. cbn.
  by rewrite (proj2 (Z.ltb_lt _ _)) by exact Hnow.
Qed.

(** A run on a single entry out of time kicks it. *)
Lemma check_members_single_out_of_time
    (m : Member.t) (limit : nat) (now : Z) :
  Member.end_time m <= now ->
  BackgroundTasks.check_members
    {| ManageMembers.conversation_members := [m];
       ManageMembers.member_limit := limit |} now
  = Some ({| ManageMembers.conversation_members := [];
             ManageMembers.member_limit := limit |},
          [KickedEmbed (Member.name m)
             (ManageMembers.get_space_left
                {| ManageMembers.conversation_members := [];
                   ManageMembers.member_limit := limit |})]).
Proof.
  intros Hnow. unfold BackgroundTasks.check_members. cbn.
  unfold Member.check_time. cbn.
  by rewrite (proj2 (Z.ltb_ge _ _)) by exact Hnow.
Qed.

Lemma kicked_app (s1 s2 : list notice) : kicked (s1 ++ s2) = kicked s1 ++ kicked s2.
Proof.
  induction s1 as [|x s1 IH]; [reflexivity|].
  destruct x; cbn; by rewrite ?IH.
Qed.

Lemma delete_insert_same {A : Type} (l : list A) (i : nat) (x : A) :
  delete i (<[i := x]> l) = delete i l.
Proof.
  revert i. induction l as [|y l IH]; intros [|i]; cbn; try reflexivity.
  by rewrite IH.
Qed.

Lemma elem_of_delete {A : Type} (l : list A) (i : nat) (x : A) :
  x ∈ delete i l -> x ∈ l.
Proof.
  revert i. induction l as [|y l IH]; intros [|i]; cbn; intros H.
  - inversion H.
  - inversion H.
  - by right.
  - inversion H; subst; [left | right; eauto].
Qed.

(** A kick is of an entry whose end has been reached. *)
Lemma check_members_loop_kicks_expired
    (fuel : nat) (now : Z) (i : nat)
    (members members' : ManageMembers.t) (sent sent' : list notice) :
  BackgroundTasks.check_members_loop fuel now i members sent
  = Some (members', sent') ->
  forall name : string,
    name ∈ kicked sent' ->
    name ∈ kicked sent
    \/ exists m, m ∈ ManageMembers.conversation_members members
                 /\ Member.name m = name /\ Member.end_time m <= now.
Proof.
  revert i members sent.
  induction fuel as [|fuel IH]; intros i [ms limit] sent; [discriminate|].
  cbn. destruct (ms !! i) as [m|] eqn:Hi.
  - destruct (Member.check_time (Member.set_start_time now m)) eqn:Hck.
    + intros [= <- <-] name Hin. by left.
    + intros H name Hin.
      apply check_time_false in Hck. cbn in Hck.
      destruct (IH _ _ _ H name Hin) as [Hs | (m0 & Hm0 & Hn & He)].
      * rewrite kicked_app in Hs. apply elem_of_app in Hs as [Hs | Hs].
        -- by left.
        -- cbn in Hs. apply list_elem_of_singleton in Hs. subst.
           right. exists m. split; [|by split].
           by eapply list_elem_of_lookup_2.
      * right. exists m0. split; [|by split].
        cbn in Hm0. rewrite delete_insert_same in Hm0.
        by eapply elem_of_delete.
  - intros [= <- <-] name Hin. by left.
Qed.

Lemma check_members_kicks_expired
    (members members' : ManageMembers.t) (now : Z) (sent : list notice) :
  BackgroundTasks.check_members members now = Some (members', sent) ->
  forall name : string,
    name ∈ kicked sent ->
    exists m, m ∈ ManageMembers.conversation_members members
              /\ Member.name m = name /\ Member.end_time m <= now.
Proof.
  unfold BackgroundTasks.check_members.
  destruct (ManageMembers.get_space members =? 0)%nat.
  - intros [= <- <-] name Hin. inversion Hin.
  - intros H name Hin.
    destruct (check_members_loop_kicks_expired _ _ _ _ _ _ _ H name Hin)
      as [Hnil | Hm]; [inversion Hnil | exact Hm].
Qed.

(** C1, the code at two failing inputs, one tick at 650 each.  First table:
    b (joined at 100, end 700) before a (joined at 0, end 600): the run
    returns at b, which is in time, and a, whose end has passed, stays.
    Second table: a and c, both joined at 0, both out of time: a is kicked,
    the iterator steps over c, and c stays. *)
Theorem check_members_leaves_expired_entries :
  Member.end_time (Member.init "a" 0) <= 650
  /\ Member.end_time (Member.init "c" 0) <= 650
  /\ BackgroundTasks.check_members
       (table [Member.init "b" 100; Member.init "a" 0]) 650
     = Some (table [Member.set_start_time 650 (Member.init "b" 100);
                    Member.init "a" 0], [])
  /\ BackgroundTasks.check_members
       (table [Member.init "a" 0; Member.init "c" 0]) 650
     = Some (table [Member.init "c" 0],
             [KickedEmbed "a" "Space left: 1 / 5"]).
Proof. repeat split; vm_compute; congruence. Qed.

(** C9, the claim at a failing input.  An entry made at 0 has its whole
    window left; it is touched, and the tick at 60 finds it in the table:
    the tick keeps it and kicks no one. *)
Lemma touched_entry_survives_next_tick :
  Member.get_time (Member.init "a" 0) = Member.max_time (Member.init "a" 0)
  /\ BackgroundTasks.check_members
       (table [Member.set_end_time (Member.init "a" 0)]) 60
     = Some (table [Member.set_start_time 60
                      (Member.set_end_time (Member.init "a" 0))], []).
Proof. split; reflexivity. Qed.

(** C9, amended.  After a touch the time left is [max_time] less the time
    left before it.  When the whole window was left, the touch puts
    [start_time] on the end, which itself stays where it was, so
    [check_time] fails right after the touch.  The tick then sets
    [start_time] to its own clock reading before it checks: a tick before
    the end keeps the entry (first in the table, whatever follows it), a
    tick at or after the end kicks it (alone in the table). *)
Theorem touch_time_left (m : Member.t) :
  Member.get_time (Member.set_end_time m)
  = Member.max_time m - Member.get_time m
  /\ (Member.get_time m = Member.max_time m ->
      Member.end_time (Member.set_end_time m)
      = Member.start_time (Member.set_end_time m)
      /\ Member.end_time (Member.set_end_time m) = Member.end_time m
      /\ Member.check_time (Member.set_end_time m) = false
      /\ (forall (now : Z) (rest : list Member.t) (limit : nat),
            now < Member.end_time m ->
            BackgroundTasks.check_members
              {| ManageMembers.conversation_members :=
                   Member.set_end_time m :: rest;
                 ManageMembers.member_limit := limit |} now
            = Some ({| ManageMembers.conversation_members :=
                         Member.set_start_time now (Member.set_end_time m)
                         :: rest;
                       ManageMembers.member_limit := limit |}, []))
      /\ (forall (now : Z) (limit : nat),
            Member.end_time m <= now ->
            BackgroundTasks.check_members
              {| ManageMembers.conversation_members := [Member.set_end_time m];
                 ManageMembers.member_limit := limit |} now
            = Some ({| ManageMembers.conversation_members := [];
                       ManageMembers.member_limit := limit |},
                    [KickedEmbed (Member.name m)
                       (ManageMembers.get_space_left
                          {| ManageMembers.conversation_members := [];
                             ManageMembers.member_limit := limit |})]))).
Proof.
  split; [apply get_time_set_end_time|].
  intros Hfull.
  assert (Hend : Member.end_time (Member.set_end_time m) = Member.end_time m).
  { rewrite set_end_time_end. unfold Member.get_time in Hfull. lia. }
  split; [|split; [exact Hend|split; [|split]]].
  - rewrite Hend. reflexivity.
  - apply check_time_false. rewrite Hend. cbn. lia.
  - intros now rest limit Hnow.
    apply check_members_first_in_time. by rewrite Hend.
  - intros now limit Hnow.
    apply (check_members_single_out_of_time (Member.set_end_time m)).
    by rewrite Hend.
Qed.

Lemma touch_time_left_witness :
  Member.end_time (Member.set_end_time (Member.init "a" 0))
  = Member.start_time (Member.set_end_time (Member.init "a" 0))
  /\ BackgroundTasks.check_members
       (table [Member.set_end_time (Member.init "a" 0)]) 60
     = Some (table [Member.set_start_time 60
                      (Member.set_end_time (Member.init "a" 0))], [])
  /\ BackgroundTasks.check_members
       (table [Member.set_end_time (Member.init "a" 0)]) 600
     = Some (table [], [KickedEmbed "a" "Space left: 0 / 5"]).
Proof.
  destruct (proj2 (touch_time_left (Member.init "a" 0)) eq_refl)
    as (Hstart & _ & _ & Hkeep & Hkick).
  split; [exact Hstart|]. split.
  - apply (Hkeep 60 [] 5%nat). cbn. lia.
  - apply (Hkick 600 5%nat). cbn. lia.
Defined.

(** ** Bot: the table stays within its limit *)

Lemma on_message_members
    (post : string -> post_result) (response_of : string -> option string)
    (self : BotMain.t) (message : BotMain.Message) :
  BotMain.members (fst (fst (BotMain.on_message post response_of self message)))
  = BotMain.members self
  \/ BotMain.members
       (fst (fst (BotMain.on_message post response_of self message)))
     = BotMain.touch (BotMain.members self) (BotMain.author_name message).
Proof.
  unfold BotMain.on_message.
  destruct (_ || _); [by left|].
  destruct (BotMain.content message) as [|c rest]; [by left|].
  destruct (Ascii.eqb_spec c ">"%char) as [->|Hc].
  - destruct (bool_decide _); [by left|].
    destruct (ManageMembers.find_member _ _); [|by left].
    destruct (ChatBot.generate_response _ _ _ _) as [c' [r|e]]; by right.
  - destruct c as [[] [] [] [] [] [] [] []]; by left.
Qed.

Lemma join_conversation_within_limit
    (self : BotMain.t) (channel_id : Z) (user_name : string) (now : Z) :
  within_limit self ->
  within_limit
    (fst (PublicCommands.join_conversation self channel_id user_name now)).
Proof.
  intros [Hlen Hlim]. unfold PublicCommands.join_conversation.
  destruct (bool_decide _); [|by split].
  destruct (ManageMembers.find_member _ _); [by split|].
  pose proof (add_member_length (BotMain.members self)
                (Member.init user_name now) Hlen) as [Hlen' Hlim'].
  destruct (ManageMembers.add_member _ _) as [members' []];
    cbn in *; split; cbn; lia.
Qed.

Lemma leave_conversation_within_limit (self : BotMain.t) (user_name : string) :
  within_limit self ->
  within_limit (fst (PublicCommands.leave_conversation self user_name)).
Proof.
  intros [Hlen Hlim]. unfold PublicCommands.leave_conversation.
  pose proof (remove_member_length (BotMain.members self) user_name)
    as [Hlen' Hlim'].
  destruct (ManageMembers.remove_member _ _) as [members' []];
    cbn in *; split; cbn; lia.
Qed.

(** The handler returns: the state is the one it computes. *)
Local Ltac returns := eexists; split; [reflexivity|].

Lemma step_within_limit
    (response_of : string -> option string) (self : BotMain.t) (e : Bot.event) :
  within_limit self ->
  exists self', Bot.step response_of self e = Some self' /\ within_limit self'.
Proof.
  intros Hinv. destruct e; cbn.
  - returns. unfold BotMain.set_home. by destruct administrator.
  - returns. by apply join_conversation_within_limit.
  - returns. by apply leave_conversation_within_limit.
  - returns. destruct Hinv as [Hlen Hlim]. unfold within_limit.
    destruct (on_message_members (fun _ => reply) response_of self message)
      as [-> | ->]; [by split|].
    by rewrite touch_length, touch_limit.
  - destruct (check_members_total (BotMain.members self) now)
      as [[members' sent] Hrun].
    rewrite Hrun. returns.
    apply check_members_count in Hrun as [Hcount Hlim'].
    destruct Hinv as [Hlen Hlim]. split; cbn; lia.
  - returns. unfold AdminCommands.reset_conversation. by destruct administrator.
  - returns. unfold AdminCommands.edit_instructions. by destruct administrator.
Qed.

Lemma run_within_limit
    (response_of : string -> option string) (es : list Bot.event)
    (self : BotMain.t) :
  within_limit self ->
  exists self', Bot.run response_of self es = Some self' /\ within_limit self'.
Proof.
  revert self. induction es as [|e es IH]; intros self Hinv; cbn.
  - eauto.
  - destruct (step_within_limit response_of self e Hinv) as (s1 & -> & Hinv1).
    by apply IH.
Qed.

(** A run over [es1] and then [es2] passes through the state after [es1]. *)
Lemma run_app
    (response_of : string -> option string) (es1 es2 : list Bot.event)
    (self : BotMain.t) :
  Bot.run response_of self (es1 ++ es2)
  = match Bot.run response_of self es1 with
    | Some self1 => Bot.run response_of self1 es2
    | None => None
    end.
Proof.
  revert self. induction es1 as [|e es1 IH]; intros self; cbn; [reflexivity|].
  by destruct (Bot.step response_of self e).
Qed.

(** C6. From the bot as [main] sets it up, every sequence of events (home
    setting, joining, leaving, messages, ticks, history and instruction
    commands) runs through, and the table it reaches holds at most 5
    members.  A state along the way is the state reached by a shorter
    sequence, so this holds at every point. *)
Theorem table_within_limit
    (response_of : string -> option string) (es : list Bot.event) :
  exists self,
    Bot.run response_of BotMain.init es = Some self
    /\ (ManageMembers.get_space (BotMain.members self) <= 5)%nat.
Proof.
  destruct (run_within_limit response_of es BotMain.init) as (s & Hrun & Hinv).
  - split; cbn; [lia | reflexivity].
  - exists s. split; [exact Hrun|].
    destruct Hinv as [Hlen Hlim]. unfold ManageMembers.get_space. lia.
Qed.

(** ** ChatBot: the conversation history *)

(** A call that fails leaves the history with the prompt at its end and
    nothing else new. *)
Lemma generate_response_raises
    (post : string -> post_result) (response_of : string -> option string)
    (self : ChatBot.t) (prompt : string) :
  post (full_prompt_of self prompt) = PostRaises ->
  ChatBot.generate_response post response_of self prompt
  = (ChatBot.with_history self (ChatBot.conversation_history self ++ [prompt]),
     Raised RequestException).
Proof.
  intros Hpost. unfold ChatBot.generate_response, full_prompt_of in *; cbn.
  by rewrite Hpost.
Qed.

Lemma generate_response_bad_status
    (post : string -> post_result) (response_of : string -> option string)
    (self : ChatBot.t) (prompt : string) (status_code : Z) (text : string) :
  post (full_prompt_of self prompt) = PostResponse status_code text ->
  status_code <> 200 ->
  ChatBot.generate_response post response_of self prompt
  = (ChatBot.with_history self (ChatBot.conversation_history self ++ [prompt]),
     Returned "(No Response)").
Proof.
  intros Hpost Hcode. unfold ChatBot.generate_response, full_prompt_of in *; cbn.
  rewrite Hpost. by rewrite (proj2 (Z.eqb_neq _ _)) by exact Hcode.
Qed.

(** A call that succeeds: prompt and response go to the end of the history,
    and the entry at position 1 goes when that makes the history as long as
    [conversation_length] or longer. *)
Lemma generate_response_success
    (post : string -> post_result) (response_of : string -> option string)
    (self : ChatBot.t) (prompt text response : string) :
  post (full_prompt_of self prompt) = PostResponse 200 text ->
  response_of text = Some response ->
  ChatBot.generate_response post response_of self prompt
  = (ChatBot.with_history self
       (if (ChatBot.conversation_length self
            <=? length (ChatBot.conversation_history self ++ [prompt; response]))%nat
        then delete 1%nat (ChatBot.conversation_history self ++ [prompt; response])
        else ChatBot.conversation_history self ++ [prompt; response]),
     Returned response).
Proof.
  intros Hpost Hresp. unfold ChatBot.generate_response, full_prompt_of in *; cbn.
  rewrite Hpost; cbn. rewrite Hresp.
  by rewrite <- (assoc_L (++)).
Qed.

(** The first entry of the history, the commands and instructions, is never
    the one deleted. *)
Lemma generate_response_keeps_first
    (post : string -> post_result) (response_of : string -> option string)
    (self : ChatBot.t) (prompt pinned : string) :
  ChatBot.conversation_history self !! 0%nat = Some pinned ->
  ChatBot.conversation_history
    (fst (ChatBot.generate_response post response_of self prompt)) !! 0%nat
  = Some pinned.
Proof.
  intros Hfirst. unfold ChatBot.generate_response; cbn.
  destruct (ChatBot.conversation_history self) as [|x h] eqn:Hh;
    [discriminate|].
  destruct (post _) as [|code text]; [exact Hfirst|].
  destruct (code =? 200); [|exact Hfirst].
  destruct (response_of text); [|exact Hfirst].
  cbn. by destruct (_ <=? _)%nat.
Qed.

(** One more exchange on a history of 29 entries or more makes it one
    longer. *)
Lemma exchange_length_long (prompt answer : string) (self : ChatBot.t) :
  ChatBot.conversation_length self = 31%nat ->
  (29 <= length (ChatBot.conversation_history self))%nat ->
  length (ChatBot.conversation_history (exchanges 1 prompt answer self))
  = S (length (ChatBot.conversation_history self))
  /\ ChatBot.conversation_length (exchanges 1 prompt answer self) = 31%nat.
Proof.
  intros Hlen Hlong. cbn [exchanges].
  rewrite (generate_response_success _ _ self prompt answer answer)
    by reflexivity.
  cbn [fst ChatBot.with_history ChatBot.conversation_history
       ChatBot.conversation_length].
  split; [|exact Hlen].
  rewrite Hlen.
  rewrite (proj2 (Nat.leb_le _ _)) by (rewrite length_app; cbn; lia).
  rewrite length_delete.
  - rewrite length_app; cbn. lia.
  - apply lookup_lt_is_Some. rewrite length_app; cbn. lia.
Qed.

Lemma exchanges_add (n k : nat) (prompt answer : string) (self : ChatBot.t) :
  exchanges (n + k) prompt answer self
  = exchanges k prompt answer (exchanges n prompt answer self).
Proof.
  revert self. induction n as [|n IH]; intros self; cbn; [reflexivity|].
  apply IH.
Qed.

Lemma exchanges_length_long
    (n : nat) (prompt answer : string) (self : ChatBot.t) :
  ChatBot.conversation_length self = 31%nat ->
  (29 <= length (ChatBot.conversation_history self))%nat ->
  length (ChatBot.conversation_history (exchanges n prompt answer self))
  = (length (ChatBot.conversation_history self) + n)%nat.
Proof.
  revert self. induction n as [|n IH]; intros self Hlen Hlong.
  - cbn. lia.
  - destruct (exchange_length_long prompt answer self Hlen Hlong) as [H1 H2].
    change (exchanges (S n) prompt answer self)
      with (exchanges n prompt answer (exchanges 1 prompt answer self)).
    rewrite IH; [lia | exact H2 | lia].
Qed.

(** From the history as [__init__] leaves it, 15 exchanges and [n] more
    give a history of [30 + n] entries: it grows without bound. *)
Lemma history_grows_without_bound (n : nat) (prompt answer : string) :
  length (ChatBot.conversation_history
            (exchanges (15 + n) prompt answer ChatBot.init))
  = (30 + n)%nat.
Proof.
  rewrite exchanges_add, exchanges_length_long.
  - reflexivity.
  - reflexivity.
  - cbn. lia.
Qed.

(** C2, the code at a failing input.  After 17 exchanges that all succeed,
    starting from the history as [__init__] leaves it, the history holds 32
    entries, and [conversation_length] is 31. *)
Theorem history_exceeds_conversation_length :
  length (ChatBot.conversation_history (exchanges 17 "p" "r" ChatBot.init))
  = 32%nat
  /\ ChatBot.conversation_length (exchanges 17 "p" "r" ChatBot.init) = 31%nat.
Proof. split; vm_compute; reflexivity. Qed.

(** C7, the claim at a failing input.  The backend cannot be reached and
    [requests.post] raises: the call has failed, and [generate_response]
    does not return the placeholder, the exception leaves it. *)
Lemma generate_response_lets_exception_out :
  call_failed PostRaises
  /\ snd (ChatBot.generate_response (fun _ => PostRaises) Some
            ChatBot.init "hello")
     = Raised RequestException
  /\ snd (ChatBot.generate_response (fun _ => PostRaises) Some
            ChatBot.init "hello")
     <> Returned "(No Response)".
Proof. repeat split. discriminate. Qed.

(** C7, amended.  A response with a status other than 200 makes
    [generate_response] return the placeholder; a call of [requests.post]
    that raises makes the exception leave [generate_response]; either way
    the history is its old self with the prompt at the end, no response
    entry on it. *)
Theorem generate_response_failure
    (post : string -> post_result) (response_of : string -> option string)
    (self : ChatBot.t) (prompt : string) :
  (forall (status_code : Z) (text : string),
     post (full_prompt_of self prompt) = PostResponse status_code text ->
     status_code <> 200 ->
     ChatBot.generate_response post response_of self prompt
     = (ChatBot.with_history self
          (ChatBot.conversation_history self ++ [prompt]),
        Returned "(No Response)"))
  /\ (post (full_prompt_of self prompt) = PostRaises ->
      ChatBot.generate_response post response_of self prompt
      = (ChatBot.with_history self
           (ChatBot.conversation_history self ++ [prompt]),
         Raised RequestException)).
Proof.
  split.
  - intros code text. apply generate_response_bad_status.
  - apply generate_response_raises.
Qed.

Lemma generate_response_failure_witness :
  ChatBot.generate_response (fun _ => PostResponse 500 "down") Some
    ChatBot.init "hello"
  = (ChatBot.with_history ChatBot.init
       (ChatBot.conversation_history ChatBot.init ++ ["hello"]),
     Returned "(No Response)")
  /\ ChatBot.generate_response (fun _ => PostRaises) Some ChatBot.init "hello"
     = (ChatBot.with_history ChatBot.init
          (ChatBot.conversation_history ChatBot.init ++ ["hello"]),
        Raised RequestException).
Proof.
  split.
  - apply (proj1 (generate_response_failure
                    (fun _ => PostResponse 500 "down") Some
                    ChatBot.init "hello") 500 "down").
    + reflexivity.
    + lia.
  - apply (proj2 (generate_response_failure
                    (fun _ => PostRaises) Some ChatBot.init "hello")).
    reflexivity.
Defined.

(** C10. The prompt is on the history before the backend is called: the
    call is handed the history joined with the prompt already at its end
    (what [generate_response] does depends on [post] at that text only),
    and when the call fails the history afterwards is the old one with the
    prompt added, one entry longer. *)
Theorem generate_response_appends_prompt_first
    (post : string -> post_result) (response_of : string -> option string)
    (self : ChatBot.t) (prompt : string) :
  call_failed (post (String.concat nl
                       (ChatBot.conversation_history self ++ [prompt]))) ->
  ChatBot.conversation_history
    (fst (ChatBot.generate_response post response_of self prompt))
  = ChatBot.conversation_history self ++ [prompt]
  /\ length (ChatBot.conversation_history
               (fst (ChatBot.generate_response post response_of self prompt)))
     = S (length (ChatBot.conversation_history self))
  /\ (forall post' : string -> post_result,
        post' (String.concat nl
                 (ChatBot.conversation_history self ++ [prompt]))
        = post (String.concat nl
                  (ChatBot.conversation_history self ++ [prompt])) ->
        ChatBot.generate_response post' response_of self prompt
        = ChatBot.generate_response post response_of self prompt).
Proof.
  intros Hfail.
  assert (Hhist :
    ChatBot.conversation_history
      (fst (ChatBot.generate_response post response_of self prompt))
    = ChatBot.conversation_history self ++ [prompt]).
  { destruct (post _) as [|code text] eqn:Hpost.
    - by rewrite generate_response_raises.
    - by rewrite (generate_response_bad_status _ _ _ _ code text). }
  split; [exact Hhist|]. split.
  - rewrite Hhist, length_app. cbn. lia.
  - intros post' Hsame. unfold ChatBot.generate_response; cbn.
    by rewrite Hsame.
Qed.

Lemma generate_response_appends_prompt_first_witness :
  ChatBot.conversation_history
    (fst (ChatBot.generate_response (fun _ => PostResponse 500 "down") Some
            ChatBot.init "hello"))
  = ChatBot.conversation_history ChatBot.init ++ ["hello"].
Proof.
  apply (generate_response_appends_prompt_first
           (fun _ => PostResponse 500 "down") Some ChatBot.init "hello").
  cbn. lia.
Defined.

(** * Further properties *)

(** ** Member: touches and ticks together *)

(** X1. Two touches in a row move both [start_time] and [end_time] on by
    [max_time], and so leave the time left as it was before them. *)
Theorem set_end_time_twice (m : Member.t) :
  Member.start_time (Member.set_end_time (Member.set_end_time m))
  = Member.start_time m + Member.max_time m
  /\ Member.end_time (Member.set_end_time (Member.set_end_time m))
     = Member.end_time m + Member.max_time m
  /\ Member.get_time (Member.set_end_time (Member.set_end_time m))
     = Member.get_time m.
Proof. destruct m; unfold Member.get_time; cbn. lia. Qed.


(** ** ManageMembers: lookups and additions *)

(** X3. [find_member] answers [True] exactly when [get_member] hands out a
    member; the member handed out bears the name asked for, and no member
    before it in the table does. *)
Theorem get_member_is_first (self : ManageMembers.t) (member_name : string) :
  (ManageMembers.find_member self member_name = true
   <-> is_Some (ManageMembers.get_member self member_name))
  /\ (forall m : Member.t,
        ManageMembers.get_member self member_name = Some m ->
        Member.name m = member_name
        /\ exists i : nat,
             ManageMembers.conversation_members self !! i = Some m
             /\ forall (j : nat) (m' : Member.t),
                  (j < i)%nat ->
                  ManageMembers.conversation_members self !! j = Some m' ->
                  Member.name m' <> member_name).
Proof.
  unfold ManageMembers.find_member, ManageMembers.get_member,
    ManageMembers.get_member_at.
  destruct self as [ms limit]; cbn.
  assert (Hgen : forall k,
    (ManageMembers.find_in ms member_name = true
     <-> is_Some (snd <$> ManageMembers.get_in ms member_name k))
    /\ (forall m, snd <$> ManageMembers.get_in ms member_name k = Some m ->
          Member.name m = member_name
          /\ exists i, ms !! i = Some m
               /\ forall j m', (j < i)%nat -> ms !! j = Some m' ->
                    Member.name m' <> member_name)).
  { induction ms as [|x ms IH]; intros k; cbn.
    - split; [split; [discriminate | intros [? [=]]] | discriminate].
    - destruct (String.eqb (Member.name x) member_name) eqn:E.
      + apply String.eqb_eq in E. cbn. split; [split; eauto|].
        intros m [= <-]. split; [exact E|]. exists 0%nat.
        split; [reflexivity | intros j m' Hj; lia].
      + apply String.eqb_neq in E. destruct (IH (S k)) as [Hfind Hget].
        split; [exact Hfind|].
        intros m Hm. destruct (Hget m Hm) as (Hname & i & Hi & Hbefore).
        split; [exact Hname|]. exists (S i). split; [exact Hi|].
        intros [|j] m' Hj; cbn.
        * by intros [= <-].
        * apply Hbefore. lia. }
  apply Hgen.
Qed.

Lemma get_member_is_first_witness :
  Member.name (Member.init "bob" 1) = "bob"
  /\ exists i : nat,
       ManageMembers.conversation_members
         (table [Member.init "alice" 0; Member.init "bob" 1]) !! i
       = Some (Member.init "bob" 1)
       /\ forall (j : nat) (m' : Member.t),
            (j < i)%nat ->
            ManageMembers.conversation_members
              (table [Member.init "alice" 0; Member.init "bob" 1]) !! j
            = Some m' ->
            Member.name m' <> "bob".
Proof.
  apply (proj2 (get_member_is_first
                  (table [Member.init "alice" 0; Member.init "bob" 1]) "bob")).
  reflexivity.
Defined.



(** ** BotMain: the touch in the table *)

Lemma get_in_insert
    (ms : list Member.t) (member_name other : string) (k i : nat)
    (m m' : Member.t) :
  ManageMembers.get_in ms member_name k = Some (i, m) ->
  Member.name m' = member_name ->
  ManageMembers.get_in (<[(i - k)%nat := m']> ms) member_name k = Some (i, m')
  /\ (other <> member_name ->
      ManageMembers.get_in (<[(i - k)%nat := m']> ms) other k
      = ManageMembers.get_in ms other k).
Proof.
  revert k. induction ms as [|x ms IH]; intros k; cbn; [discriminate|].
  destruct (String.eqb (Member.name x) member_name) eqn:E.
  - intros [= <- <-] Hname. apply String.eqb_eq in E.
    rewrite Nat.sub_diag. cbn. split.
    + by rewrite (proj2 (String.eqb_eq _ _)) by exact Hname.
    + intros Hother.
      rewrite !(proj2 (String.eqb_neq _ _)) by congruence. reflexivity.
  - intros Hget Hname.
    destruct (get_in_lookup _ _ _ _ _ Hget) as (Hk & _ & _).
    destruct (IH _ Hget Hname) as [Hsame Hother].
    replace (i - k)%nat with (S (i - S k)) by lia. cbn.
    rewrite E. split; [exact Hsame|].
    intros Hne. destruct (String.eqb (Member.name x) other); [reflexivity|].
    by apply Hother.
Qed.

(** X5. The touch of [on_message] changes one entry, the one [get_member]
    hands out for the name: a name not in the table leaves the table as it
    is; otherwise a lookup of the name afterwards gives the member after its
    [set_end_time], a lookup of any other name gives what it gave before, and
    the table holds as many entries as before. *)
Theorem touch_then_get
    (members : ManageMembers.t) (member_name other : string) :
  (ManageMembers.get_member members member_name = None ->
   BotMain.touch members member_name = members)
  /\ (forall m : Member.t,
        ManageMembers.get_member members member_name = Some m ->
        ManageMembers.get_member (BotMain.touch members member_name)
          member_name
        = Some (Member.set_end_time m))
  /\ (other <> member_name ->
      ManageMembers.get_member (BotMain.touch members member_name) other
      = ManageMembers.get_member members other)
  /\ ManageMembers.get_space (BotMain.touch members member_name)
     = ManageMembers.get_space members.
Proof.
  unfold ManageMembers.get_space. rewrite touch_length.
  unfold BotMain.touch, ManageMembers.get_member, ManageMembers.get_member_at.
  destruct (ManageMembers.get_in _ member_name 0) as [[i m]|] eqn:Hget; cbn.
  - destruct (get_in_lookup _ _ _ _ _ Hget) as (_ & _ & Hname).
    assert (Hname' : Member.name (Member.set_end_time m) = member_name)
      by (by destruct m).
    destruct (get_in_insert _ _ other _ _ _ _ Hget Hname') as [Hsame Hother].
    rewrite Nat.sub_0_r in Hsame, Hother.
    split; [discriminate|]. split.
    + intros m0 [= <-]. by rewrite Hsame.
    + split; [|reflexivity]. intros Hne. by rewrite Hother.
  - split; [reflexivity|]. split; [discriminate|]. by split.
Qed.

Lemma touch_then_get_witness :
  ManageMembers.get_member
    (BotMain.touch (table [Member.init "alice" 0; Member.init "bob" 1]) "bob")
    "bob"
  = Some (Member.set_end_time (Member.init "bob" 1))
  /\ ManageMembers.get_member
       (BotMain.touch (table [Member.init "alice" 0; Member.init "bob" 1])
          "bob") "alice"
     = ManageMembers.get_member
         (table [Member.init "alice" 0; Member.init "bob" 1]) "alice"
  /\ BotMain.touch (table [Member.init "alice" 0]) "carol"
     = table [Member.init "alice" 0].
Proof.
  split; [|split].
  - apply (proj1 (proj2 (touch_then_get
                           (table [Member.init "alice" 0; Member.init "bob" 1])
                           "bob" "alice"))).
    reflexivity.
  - apply (proj1 (proj2 (proj2 (touch_then_get
                           (table [Member.init "alice" 0; Member.init "bob" 1])
                           "bob" "alice")))).
    discriminate.
  - apply (proj1 (touch_then_get (table [Member.init "alice" 0])
                    "carol" "alice")).
    reflexivity.
Defined.

(** ** PublicCommands: leaving *)

(** X6. [leave_conversation] says the user is not part of the conversation
    exactly when the table is empty; on any other table it announces that the
    user has left.  The table changes only when its first entry bears the
    user's name, and then it loses that entry and no other. *)
Theorem leave_conversation_outcome (self : BotMain.t) (user_name : string) :
  (snd (PublicCommands.leave_conversation self user_name)
   = [Text "You are not part of the conversation."]
   <-> ManageMembers.conversation_members (BotMain.members self) = [])
  /\ (ManageMembers.conversation_members (BotMain.members self) <> [] ->
      exists footer : string,
        snd (PublicCommands.leave_conversation self user_name)
        = [LeftEmbed user_name footer])
  /\ (forall (m : Member.t) (rest : list Member.t),
        ManageMembers.conversation_members (BotMain.members self) = m :: rest ->
        ManageMembers.conversation_members
          (BotMain.members (fst (PublicCommands.leave_conversation
                                   self user_name)))
        = if String.eqb (Member.name m) user_name then rest else m :: rest).
Proof.
  unfold PublicCommands.leave_conversation.
  destruct self as [c [[|m rest] limit] home].
  - cbn. split; [split; reflexivity|]. split; [congruence | discriminate].
  - cbn [BotMain.members]. rewrite remove_member_first. cbn.
    split; [split; discriminate|]. split; [eauto|].
    intros m0 rest0 [= <- <-].
    by destruct (String.eqb (Member.name m) user_name).
Qed.

Lemma leave_conversation_outcome_witness :
  (exists footer : string,
     snd (PublicCommands.leave_conversation
            (at_home [Member.init "alice" 0; Member.init "bob" 1]) "bob")
     = [LeftEmbed "bob" footer])
  /\ ManageMembers.conversation_members
       (BotMain.members
          (fst (PublicCommands.leave_conversation
                  (at_home [Member.init "alice" 0; Member.init "bob" 1]) "bob")))
     = [Member.init "alice" 0; Member.init "bob" 1].
Proof.
  pose proof (leave_conversation_outcome
                (at_home [Member.init "alice" 0; Member.init "bob" 1]) "bob")
    as (_ & Hsaid & Hleft).
  split.
  - apply Hsaid. discriminate.
  - apply (Hleft (Member.init "alice" 0) [Member.init "bob" 1]). reflexivity.
Defined.

(** ** BackgroundTasks: what one run can and cannot do *)

Lemma deadline_of_insert_start (ms : list Member.t) (i : nat) (m : Member.t)
    (now : Z) :
  ms !! i = Some m ->
  deadline_of <$> <[i := Member.set_start_time now m]> ms = deadline_of <$> ms.
Proof.
  intros Hi. rewrite list_fmap_insert. apply list_insert_id.
  rewrite list_lookup_fmap, Hi. reflexivity.
Qed.

Lemma check_members_loop_keeps
    (fuel : nat) (now : Z) (i : nat)
    (members members' : ManageMembers.t) (sent sent' : list notice) :
  BackgroundTasks.check_members_loop fuel now i members sent
  = Some (members', sent') ->
  (deadline_of <$> ManageMembers.conversation_members members')
    `sublist_of` (deadline_of <$> ManageMembers.conversation_members members).
Proof.
  revert i members sent.
  induction fuel as [|fuel IH]; intros i [ms limit] sent; [discriminate|].
  cbn. destruct (ms !! i) as [m|] eqn:Hi.
  - destruct (Member.check_time (Member.set_start_time now m)).
    + intros [= <- <-]. cbn. by rewrite deadline_of_insert_start.
    + intros H. apply IH in H. cbn in H.
      rewrite delete_insert_same in H.
      etrans; [exact H|]. apply fmap_sublist, sublist_delete.
  - intros [= <- <-]. reflexivity.
Qed.

(** X7. A run of [check_members] adds no entry, moves none and changes no
    entry's name or end: the names and ends after it, in table order, are
    those before it with some left out. *)
Theorem check_members_keeps_deadlines
    (members members' : ManageMembers.t) (now : Z) (sent : list notice) :
  BackgroundTasks.check_members members now = Some (members', sent) ->
  (deadline_of <$> ManageMembers.conversation_members members')
    `sublist_of` (deadline_of <$> ManageMembers.conversation_members members).
Proof.
  unfold BackgroundTasks.check_members.
  destruct (ManageMembers.get_space members =? 0)%nat.
  - intros [= <- <-]. reflexivity.
  - apply check_members_loop_keeps.
Qed.

Lemma check_members_keeps_deadlines_witness :
  (deadline_of <$> [Member.init "c" 0])
    `sublist_of` (deadline_of <$> [Member.init "a" 0; Member.init "c" 0]).
Proof.
  apply (check_members_keeps_deadlines
           (table [Member.init "a" 0; Member.init "c" 0])
           (table [Member.init "c" 0]) 650
           [KickedEmbed "a" "Space left: 1 / 5"]).
  reflexivity.
Defined.

Lemma check_members_loop_half
    (fuel : nat) (now : Z) (i : nat)
    (members members' : ManageMembers.t) (sent sent' : list notice) :
  BackgroundTasks.check_members_loop fuel now i members sent
  = Some (members', sent') ->
  (2 * (length sent' - length sent)
   <= length (ManageMembers.conversation_members members) - i + 1)%nat.
Proof.
  revert i members sent.
  induction fuel as [|fuel IH]; intros i [ms limit] sent; [discriminate|].
  cbn. destruct (ms !! i) as [m|] eqn:Hi.
  - pose proof (lookup_lt_Some _ _ _ Hi) as Hlt.
    destruct (Member.check_time (Member.set_start_time now m)).
    + intros [= <- <-]. lia.
    + intros H. pose proof (IH _ _ _ H) as Hhalf. cbn in Hhalf.
      apply check_members_loop_count in H as (_ & Hmore & _).
      rewrite length_delete, length_insert, length_app in *; cbn in *;
        [lia|].
      by apply list_lookup_insert_is_Some.
  - intros [= <- <-]. lia.
Qed.

(** X8. One run of [check_members] kicks at most every other entry: of [n]
    entries at least [n / 2], rounded down, are still in the table after it,
    however many were out of time. *)
Theorem check_members_keeps_half
    (members members' : ManageMembers.t) (now : Z) (sent : list notice) :
  BackgroundTasks.check_members members now = Some (members', sent) ->
  (length (ManageMembers.conversation_members members)
   <= 2 * length (ManageMembers.conversation_members members') + 1)%nat.
Proof.
  intros Hrun. pose proof (check_members_count _ _ _ _ Hrun) as [Hcount _].
  revert Hrun. unfold BackgroundTasks.check_members.
  destruct (ManageMembers.get_space members =? 0)%nat.
  - intros [= <- <-]. lia.
  - intros H. apply check_members_loop_half in H. cbn in H. lia.
Qed.

Lemma check_members_keeps_half_witness :
  (length (ManageMembers.conversation_members
             (table [Member.init "a" 0; Member.init "c" 0]))
   <= 2 * length (ManageMembers.conversation_members
                    (table [Member.init "c" 0])) + 1)%nat.
Proof.
  apply (check_members_keeps_half
           (table [Member.init "a" 0; Member.init "c" 0])
           (table [Member.init "c" 0]) 650
           [KickedEmbed "a" "Space left: 1 / 5"]).
  reflexivity.
Defined.








(** ** BotMain: who a message touches *)

Lemma names_touch (members : ManageMembers.t) (member_name : string) :
  names (BotMain.touch members member_name) = names members.
Proof.
  unfold BotMain.touch, names, ManageMembers.get_member_at.
  destruct (ManageMembers.get_in _ _ _) as [[i m]|] eqn:Hget; [|reflexivity].
  apply get_in_lookup in Hget as (_ & Hi & _).
  rewrite Nat.sub_0_r in Hi. cbn.
  rewrite list_fmap_insert. apply list_insert_id.
  by rewrite list_lookup_fmap, Hi.
Qed.






(** ** Bot: what holds of the table after any events *)

Lemma names_deadlines (ms : list Member.t) :
  Member.name <$> ms = fst <$> (deadline_of <$> ms).
Proof. by rewrite <- list_fmap_compose. Qed.

Lemma check_members_keeps_names
    (members members' : ManageMembers.t) (now : Z) (sent : list notice) :
  BackgroundTasks.check_members members now = Some (members', sent) ->
  names members' `sublist_of` names members.
Proof.
  intros H. unfold names. rewrite !names_deadlines.
  apply fmap_sublist. revert H. unfold BackgroundTasks.check_members.
  destruct (ManageMembers.get_space members =? 0)%nat.
  - intros [= <- <-]. reflexivity.
  - apply check_members_loop_keeps.
Qed.

Lemma on_message_keeps
    (post : string -> post_result) (response_of : string -> option string)
    (self : BotMain.t) (message : BotMain.Message) :
  names (BotMain.members
           (fst (fst (BotMain.on_message post response_of self message))))
  = names (BotMain.members self)
  /\ BotMain.home_channel_id
       (fst (fst (BotMain.on_message post response_of self message)))
     = BotMain.home_channel_id self.
Proof.
  split.
  - destruct (on_message_members post response_of self message) as [-> | ->];
      [reflexivity | apply names_touch].
  - unfold BotMain.on_message.
    destruct (_ || _); [reflexivity|].
    destruct (BotMain.content message) as [|c rest]; [reflexivity|].
    destruct c as [[] [] [] [] [] [] [] []]; try reflexivity.
    destruct (bool_decide _); [reflexivity|].
    destruct (ManageMembers.find_member _ _); [|reflexivity].
    by destruct (ChatBot.generate_response _ _ _ _) as [c' [r|e]].
Qed.

Lemma step_well_kept
    (response_of : string -> option string)
    (self self' : BotMain.t) (e : Bot.event) :
  well_kept self -> Bot.step response_of self e = Some self' ->
  well_kept self'.
Proof.
  intros [Hnodup Hhome]. destruct e; cbn.
  - intros [= <-]. unfold BotMain.set_home.
    destruct administrator; cbn; [split; [exact Hnodup | discriminate]|].
    by split.
  - intros [= <-]. unfold PublicCommands.join_conversation.
    case_bool_decide as Hgate; [|by split].
    destruct (ManageMembers.find_member _ _) eqn:Hfind; [by split|].
    apply find_member_false in Hfind.
    unfold ManageMembers.add_member.
    destruct (_ <? _)%nat; cbn; [|by split].
    split; [|intros Hnone; cbn in Hnone; rewrite Hnone in Hgate; discriminate].
    unfold names in *; cbn. rewrite fmap_app. apply NoDup_app.
    split; [exact Hnodup|]. split; [|apply NoDup_singleton].
    intros x Hx Hin. apply list_elem_of_singleton in Hin. by subst.
  - intros [= <-]. unfold PublicCommands.leave_conversation.
    destruct self as [c [[|m rest] limit] home]; [by split|].
    cbn [BotMain.members]. rewrite remove_member_first.
    destruct (String.eqb (Member.name m) user_name); cbn; [|by split].
    unfold names in *; cbn in *. split.
    + by apply NoDup_cons in Hnodup as [_ ?].
    + intros Hnone. by specialize (Hhome Hnone).
  - intros [= <-].
    destruct (on_message_keeps (fun _ => reply) response_of self message)
      as [Hnames Hsame].
    split; [by rewrite Hnames|].
    rewrite Hsame. intros Hnone. specialize (Hhome Hnone).
    unfold names in Hnames. rewrite Hhome in Hnames.
    by apply fmap_nil_inv in Hnames.
  - destruct (BackgroundTasks.check_members _ _) as [[members' sent]|] eqn:Hrun;
      [|discriminate].
    intros [= <-]. apply check_members_keeps_names in Hrun. cbn. split.
    + by eapply sublist_NoDup.
    + intros Hnone. specialize (Hhome Hnone).
      unfold names in Hrun. rewrite Hhome in Hrun.
      apply sublist_nil_r in Hrun. by apply fmap_nil_inv in Hrun.
  - intros [= <-]. unfold AdminCommands.reset_conversation.
    by destruct administrator.
  - intros [= <-]. unfold AdminCommands.edit_instructions.
    by destruct administrator.
Qed.

Lemma run_well_kept
    (response_of : string -> option string) (es : list Bot.event)
    (self self' : BotMain.t) :
  well_kept self -> Bot.run response_of self es = Some self' ->
  well_kept self'.
Proof.
  revert self. induction es as [|e es IH]; intros self Hkept; cbn.
  - by intros [= <-].
  - destruct (Bot.step response_of self e) as [s1|] eqn:Hstep; [|discriminate].
    apply IH. by eapply step_well_kept.
Qed.

Lemma init_well_kept : well_kept BotMain.init.
Proof. split; [apply NoDup_nil_2 | reflexivity]. Qed.

(** X13. From the bot as [main] sets it up, after every sequence of events
    no two entries of the table bear the same name. *)
Theorem names_stay_distinct
    (response_of : string -> option string) (es : list Bot.event) :
  exists self,
    Bot.run response_of BotMain.init es = Some self
    /\ NoDup (names (BotMain.members self)).
Proof.
  destruct (run_within_limit response_of es BotMain.init) as (s & Hrun & _).
  { split; cbn; [lia | reflexivity]. }
  exists s. split; [exact Hrun|].
  exact (proj1 (run_well_kept _ _ _ _ init_well_kept Hrun)).
Qed.

(** X14. From the bot as [main] sets it up, after every sequence of events
    the table is empty if no home channel is set: whenever [check_members]
    has someone to kick, there is a home channel to send the embed to. *)
Theorem no_home_no_members
    (response_of : string -> option string) (es : list Bot.event) :
  exists self,
    Bot.run response_of BotMain.init es = Some self
    /\ (BotMain.home_channel_id self = None ->
        ManageMembers.conversation_members (BotMain.members self) = []).
Proof.
  destruct (run_within_limit response_of es BotMain.init) as (s & Hrun & _).
  { split; cbn; [lia | reflexivity]. }
  exists s. split; [exact Hrun|].
  exact (proj2 (run_well_kept _ _ _ _ init_well_kept Hrun)).
Qed.

Lemma no_home_no_members_witness :
  ManageMembers.conversation_members (BotMain.members BotMain.init) = [].
Proof.
  destruct (no_home_no_members Some []) as (self & Hrun & Hempty).
  injection Hrun as <-. apply Hempty. reflexivity.
Defined.

(** ** BotMain: the home channel *)

(** X15. Before any [set_home], [check_if_home] answers [None] for every
    channel.  After an administrator's [set_home] in a channel it answers
    [True] for that channel and [False] for every other; a [set_home] by
    anyone else changes nothing. *)
Theorem set_home_then_check (self : BotMain.t) (channel_id other : Z) :
  BotMain.check_if_home BotMain.init other = None
  /\ BotMain.check_if_home (fst (BotMain.set_home self true channel_id))
       channel_id = Some true
  /\ (other <> channel_id ->
      BotMain.check_if_home (fst (BotMain.set_home self true channel_id))
        other = Some false)
  /\ fst (BotMain.set_home self false channel_id) = self.
Proof.
  unfold BotMain.check_if_home; cbn.
  split; [reflexivity|]. split; [by rewrite Z.eqb_refl|].
  split; [|reflexivity].
  intros Hne. by rewrite (proj2 (Z.eqb_neq _ _)) by congruence.
Qed.

Lemma set_home_then_check_witness :
  BotMain.check_if_home (fst (BotMain.set_home BotMain.init true 7)) 8
  = Some false.
Proof.
  apply (proj1 (proj2 (proj2 (set_home_then_check BotMain.init 7 8)))).
  lia.
Defined.


(** ** BotMain: replies of any length *)

Lemma slices_length (limit : nat) (s : string) :
  length (BotMain.slices limit s)
  = ((String.length s + limit - 1) / limit)%nat.
Proof.
  unfold BotMain.slices, BotMain.range.
  by rewrite !length_fmap, length_seq, Nat.sub_0_r.
Qed.

Lemma slices_lookup (limit : nat) (s : string) (k : nat) (chunk : string) :
  BotMain.slices limit s !! k = Some chunk ->
  (k < (String.length s + limit - 1) / limit)%nat
  /\ chunk = substring (k * limit) limit s.
Proof.
  unfold BotMain.slices, BotMain.range. rewrite Nat.sub_0_r.
  rewrite !list_lookup_fmap. intros H.
  destruct (seq 0 _ !! k) as [k'|] eqn:Hk; [|discriminate].
  apply lookup_seq in Hk as [-> Hlt]. cbn in H.
  by injection H as <-.
Qed.

Lemma descriptions_of_embeds (chunks : list string) (prompt : string) :
  description_of <$> ((fun chunk => ResponseEmbed chunk prompt) <$> chunks)
  = chunks.
Proof.
  induction chunks as [|chunk chunks IH]; cbn; [reflexivity | by rewrite IH].
Qed.

(** X16. Whatever its length, a response goes out whole and in order: the
    texts of the replies joined give the response, every reply is a response
    embed of at most 2000 characters with the prompt as footer, and there is
    at least one reply (one alone up to 2000 characters, the empty response
    included). *)
Theorem replies_cover (response prompt : string) :
  String.concat "" (description_of <$> BotMain.replies response prompt)
  = response
  /\ Forall (fun n => exists description,
               n = ResponseEmbed description prompt
               /\ (String.length description <= 2000)%nat)
       (BotMain.replies response prompt)
  /\ length (BotMain.replies response prompt)
     = Nat.max 1 ((String.length response + 2000 - 1) / 2000)
  /\ ((String.length response <= 2000)%nat ->
      BotMain.replies response prompt = [ResponseEmbed response prompt]).
Proof.
  unfold BotMain.replies.
  destruct (Nat.ltb_spec BotMain.text_limit (String.length response))
    as [Hlong | Hshort]; unfold BotMain.text_limit in *.
  - split; [|split; [|split]].
    + rewrite descriptions_of_embeds. apply concat_slices.
      unfold BotMain.text_limit. lia.
    + apply Forall_fmap, Forall_forall. intros chunk Hchunk. cbn.
      exists chunk. split; [reflexivity|].
      assert (Hpos : (0 < 2000)%nat) by lia.
      pose proof (slices_sizes 2000 Hpos response) as Hsizes.
      apply (proj1 (Forall_forall _ _) Hsizes chunk Hchunk).
    + rewrite length_fmap. unfold BotMain.parsed_response, BotMain.text_limit.
      rewrite slices_length.
      assert (1 <= (String.length response + 2000 - 1) / 2000)%nat; [|lia].
      apply Nat.div_le_lower_bound; lia.
    + lia.
  - split; [reflexivity|]. split; [|split; [|reflexivity]].
    + apply Forall_singleton. eauto.
    + cbn [length].
      assert ((String.length response + 2000 - 1) / 2000 < 2)%nat; [|lia].
      apply Nat.Div0.div_lt_upper_bound. lia.
Qed.

Lemma replies_cover_witness :
  BotMain.replies "" "p" = [ResponseEmbed "" "p"].
Proof.
  apply (proj2 (proj2 (proj2 (replies_cover "" "p")))). cbn. lia.
Defined.

(** X17. The chunks of [parsed_response] are the slices of the response at
    0, 2000, 4000, ...: there are as many as 2000 goes into the length,
    rounded up; every chunk that does not reach the end of the response has
    exactly 2000 characters, and the last one has what is left. *)
Theorem parsed_response_chunks (response : string) (k : nat) (chunk : string) :
  BotMain.parsed_response response !! k = Some chunk ->
  length (BotMain.parsed_response response)
  = ((String.length response + 2000 - 1) / 2000)%nat
  /\ chunk = substring (k * 2000) 2000 response
  /\ (((k + 1) * 2000 <= String.length response)%nat ->
      String.length chunk = 2000%nat)
  /\ ((String.length response < (k + 1) * 2000)%nat ->
      String.length chunk = (String.length response - k * 2000)%nat).
Proof.
  unfold BotMain.parsed_response, BotMain.text_limit. intros Hk.
  split; [apply slices_length|].
  apply slices_lookup in Hk as [_ ->].
  split; [reflexivity|]. rewrite length_substring. lia.
Qed.

Lemma parsed_response_chunks_witness :
  String.length (substring (1 * 2000) 2000 long_response) = 1%nat.
Proof.
  destruct (parsed_response_chunks long_response 1
              (substring (1 * 2000) 2000 long_response))
    as (_ & _ & _ & Hlast).
  - vm_compute. reflexivity.
  - rewrite Hlast; [vm_compute; reflexivity|].
    apply Nat.ltb_lt. vm_compute. reflexivity.
Defined.

(** ** ChatBot: calls in a row *)

Lemma generate_response_step
    (post : string -> post_result) (response_of : string -> option string)
    (self : ChatBot.t) (prompt : string) :
  (length (ChatBot.conversation_history self) + 1
   <= length (ChatBot.conversation_history
                (fst (ChatBot.generate_response post response_of self prompt)))
   <= length (ChatBot.conversation_history self) + 2)%nat
  /\ ChatBot.commands
       (fst (ChatBot.generate_response post response_of self prompt))
     = ChatBot.commands self
  /\ ChatBot.instructions
       (fst (ChatBot.generate_response post response_of self prompt))
     = ChatBot.instructions self
  /\ ChatBot.conversation_length
       (fst (ChatBot.generate_response post response_of self prompt))
     = ChatBot.conversation_length self.
Proof.
  unfold ChatBot.generate_response; cbn.
  destruct (post _) as [|code text]; cbn.
  { rewrite length_app; cbn. repeat split; lia. }
  destruct (code =? 200); cbn.
  2:{ rewrite length_app; cbn. repeat split; lia. }
  destruct (response_of text); cbn.
  2:{ rewrite length_app; cbn. repeat split; lia. }
  destruct (_ <=? _)%nat; cbn.
  - rewrite length_delete.
    + rewrite !length_app; cbn. repeat split; lia.
    + apply lookup_lt_is_Some. rewrite !length_app; cbn. lia.
  - rewrite !length_app; cbn. repeat split; lia.
Qed.

Lemma calls_frame
    (response_of : string -> option string)
    (cs : list (string * post_result)) (self : ChatBot.t) :
  ChatBot.commands (calls response_of cs self) = ChatBot.commands self
  /\ ChatBot.instructions (calls response_of cs self)
     = ChatBot.instructions self
  /\ ChatBot.conversation_length (calls response_of cs self)
     = ChatBot.conversation_length self.
Proof.
  revert self. induction cs as [|[prompt reply] cs IH]; intros self; cbn;
    [done|].
  destruct (IH (fst (ChatBot.generate_response (fun _ => reply) response_of
                       self prompt))) as (-> & -> & ->).
  destruct (generate_response_step (fun _ => reply) response_of self prompt)
    as (_ & -> & -> & ->).
  done.
Qed.

(** X18. Over any calls of [generate_response], whatever the backend does
    at each, the history's first entry stays what it was, and the history
    gets longer with every call: by one entry at least and two at most. *)
Theorem calls_keep_first_and_grow
    (response_of : string -> option string)
    (cs : list (string * post_result)) (self : ChatBot.t) (pinned : string) :
  ChatBot.conversation_history self !! 0%nat = Some pinned ->
  ChatBot.conversation_history (calls response_of cs self) !! 0%nat
  = Some pinned
  /\ (length (ChatBot.conversation_history self) + length cs
      <= length (ChatBot.conversation_history (calls response_of cs self))
      <= length (ChatBot.conversation_history self) + 2 * length cs)%nat.
Proof.
  revert self. induction cs as [|[prompt reply] cs IH]; intros self Hfirst.
  - cbn. split; [exact Hfirst | lia].
  - cbn [calls length].
    pose proof (generate_response_keeps_first (fun _ => reply) response_of
                  self prompt pinned Hfirst) as Hfirst'.
    destruct (IH _ Hfirst') as [Hpinned Hlen].
    destruct (generate_response_step (fun _ => reply) response_of self prompt)
      as (Hstep & _).
    split; [exact Hpinned | lia].
Qed.

Lemma calls_keep_first_and_grow_witness :
  ChatBot.conversation_history
    (calls Some [("a", PostRaises); ("b", PostResponse 200 "r")] ChatBot.init)
    !! 0%nat
  = Some ChatBot.commands_text.
Proof.
  apply (calls_keep_first_and_grow Some
           [("a", PostRaises); ("b", PostResponse 200 "r")]
           ChatBot.init ChatBot.commands_text).
  reflexivity.
Defined.

(** X19. [reset_conversation_history] and [edit_instructions] forget the
    conversation: after any calls of [generate_response] they give what they
    give before them, a history of one entry, the commands followed by the
    instructions; the next prompt then goes to the backend behind that entry
    and a line feed. *)
Theorem reset_forgets_calls
    (response_of : string -> option string)
    (cs : list (string * post_result)) (self : ChatBot.t)
    (p g r prompt : string) :
  ChatBot.reset_conversation_history (calls response_of cs self)
  = ChatBot.reset_conversation_history self
  /\ ChatBot.edit_instructions (calls response_of cs self) p g r
     = ChatBot.edit_instructions self p g r
  /\ ChatBot.conversation_history (ChatBot.reset_conversation_history self)
     = [(ChatBot.commands self ++ ChatBot.instructions self)%string]
  /\ full_prompt_of (ChatBot.reset_conversation_history self) prompt
     = (ChatBot.commands self ++ ChatBot.instructions self
        ++ nl ++ prompt)%string.
Proof.
  destruct (calls_frame response_of cs self) as (Hc & Hi & Hl).
  unfold ChatBot.reset_conversation_history, ChatBot.edit_instructions,
    ChatBot.with_history, full_prompt_of; cbn.
  rewrite Hc, Hi, Hl. repeat split.
  by rewrite append_assoc.
Qed.

(** X20. A prompt whose call failed stays in the history with no response
    behind it, and goes to the backend again with the next prompt: the next
    call is handed the old history, the failed prompt and the new prompt,
    joined by line feeds. *)
Theorem failed_prompt_is_sent_again
    (post : string -> post_result) (response_of : string -> option string)
    (self : ChatBot.t) (prompt next : string) :
  call_failed (post (full_prompt_of self prompt)) ->
  full_prompt_of
    (fst (ChatBot.generate_response post response_of self prompt)) next
  = String.concat nl (ChatBot.conversation_history self ++ [prompt; next]).
Proof.
  intros Hfail.
  destruct (post (full_prompt_of self prompt)) as [|code text] eqn:Hpost.
  - rewrite generate_response_raises by exact Hpost.
    unfold full_prompt_of; cbn. by rewrite <- (assoc_L (++)).
  - rewrite (generate_response_bad_status _ _ _ _ code text) by done.
    unfold full_prompt_of; cbn. by rewrite <- (assoc_L (++)).
Qed.

Lemma failed_prompt_is_sent_again_witness :
  full_prompt_of
    (fst (ChatBot.generate_response (fun _ => PostRaises) Some
            ChatBot.init "one")) "two"
  = String.concat nl (ChatBot.conversation_history ChatBot.init
                      ++ ["one"; "two"]).
Proof.
  apply (failed_prompt_is_sent_again (fun _ => PostRaises) Some
           ChatBot.init "one" "two").
  exact I.
Defined.

(** X21. With [conversation_length] at 31, a call that succeeds on a history
    of fewer than 29 entries puts prompt and response at its end and drops
    nothing; on a history of 29 or more it drops the entry at position 1,
    the oldest after the first, and nothing else, the order of the rest
    kept. *)
Theorem generate_response_drops_second
    (post : string -> post_result) (response_of : string -> option string)
    (self : ChatBot.t) (prompt text response : string) :
  ChatBot.conversation_length self = 31%nat ->
  post (full_prompt_of self prompt) = PostResponse 200 text ->
  response_of text = Some response ->
  ((length (ChatBot.conversation_history self) < 29)%nat ->
   ChatBot.conversation_history
     (fst (ChatBot.generate_response post response_of self prompt))
   = ChatBot.conversation_history self ++ [prompt; response])
  /\ ((29 <= length (ChatBot.conversation_history self))%nat ->
      exists first second rest,
        ChatBot.conversation_history self = first :: second :: rest
        /\ ChatBot.conversation_history
             (fst (ChatBot.generate_response post response_of self prompt))
           = first :: rest ++ [prompt; response]).
Proof.
  intros Hlen Hpost Hresp.
  rewrite (generate_response_success _ _ _ _ text response Hpost Hresp).
  cbn [fst ChatBot.with_history ChatBot.conversation_history]. rewrite Hlen.
  split; intros Hh.
  - by rewrite (proj2 (Nat.leb_gt _ _)) by (rewrite length_app; cbn; lia).
  - rewrite (proj2 (Nat.leb_le _ _)) by (rewrite length_app; cbn; lia).
    destruct (ChatBot.conversation_history self) as [|first [|second rest]];
      cbn in Hh; try lia.
    by exists first, second, rest.
Qed.

Lemma generate_response_drops_second_witness :
  ChatBot.conversation_history
    (fst (ChatBot.generate_response (fun _ => PostResponse 200 "r") Some
            ChatBot.init "p"))
  = ChatBot.conversation_history ChatBot.init ++ ["p"; "r"].
Proof.
  apply (proj1 (generate_response_drops_second
                  (fun _ => PostResponse 200 "r") Some ChatBot.init
                  "p" "r" "r" eq_refl eq_refl eq_refl)).
  cbn. lia.
Defined.
